(** * Life Map Coaching: the event store and its analytics

    A shallow embedding of [app.py], the Streamlit script of the Life Map
    application, and the properties of its event store (the add, delete,
    reflection and import handlers) and of the statistics it derives from the
    recorded events (overview metrics, detected patterns, coaching
    recommendations).

    Conventions of the embedding.
    - Python integers are [Z]; Python strings are [string], read as their
      UTF-8 bytes, so that the byte-wise order of [String.leb] is Python's
      code-point order.
    - A life event is a dictionary with a fixed set of keys; it is a record.
    - [st.session_state] is threaded explicitly through every handler; what a
      handler shows ([st.success], [st.error]) and whether it ends the run
      with [st.rerun()] is returned beside the new state.
    - A pandas [DataFrame] built from the list of events is that list, row
      labels being the positions; a column is the list of a field.
    - A [float64] produced by a pandas reduction over the integer columns is
      modelled by the exact number it rounds (a rational of [Q], or a real
      of [R] where a square root is taken), [NaN] by [None]. *)

From Stdlib Require Import ZArith String Ascii List Bool Lia.
From Stdlib Require Import QArith.
From Stdlib Require Import Permutation Sorted OrdersEx RelationClasses.
From Stdlib Require Import DecimalString.
From Stdlib Require Import Reals Lra.
Import ListNotations.

#[local] Open Scope string_scope.
#[local] Open Scope Z_scope.

(** ** Python built-ins used by the script *)

Module Py.

(** [range(a, b)] as the list it is turned into by [list(...)]. *)
Definition range (a b : Z) : list Z :=
  map (fun i => a + Z.of_nat i) (seq 0 (Z.to_nat (b - a))).

(** [x in v] for a list of integers. *)
Definition contains (x : Z) (v : list Z) : bool :=
  existsb (Z.eqb x) v.

(** [next((k for k, v in d.items() if p(v)), default)]: the key of the first
    item, in insertion order, whose value satisfies [p]. *)
Fixpoint next_key {K V : Type} (p : V -> bool) (items : list (K * V))
    (default : K) : K :=
  match items with
  | [] => default
  | (k, v) :: rest => if p v then k else next_key p rest default
  end.

(** [enumerate(l)]. *)
Definition enumerate {A : Type} (l : list A) : list (nat * A) :=
  combine (seq 0 (length l)) l.

(** Truth value of a string: false exactly for the empty string. *)
Definition truthy (s : string) : bool :=
  match s with
  | EmptyString => false
  | String _ _ => true
  end.

(** [s.split(sep)] for a one-character separator. *)
Fixpoint split (sep : ascii) (s : string) : list string :=
  match s with
  | EmptyString => [EmptyString]
  | String c rest =>
      if Ascii.eqb c sep then EmptyString :: split sep rest
      else match split sep rest with
           | [] => [String c EmptyString]
           | w :: ws => String c w :: ws
           end
  end.

(** [str(n)] for a natural number. *)
Definition str (n : nat) : string :=
  NilEmpty.string_of_uint (Nat.to_uint n).

End Py.

(** ** Data model *)

(** The keys that [new_event.update] adds when "Show Advanced Options" is on. *)
Record advanced_details : Type := mk_advanced {
  duration : string;
  people_involved : string;
  location : string;
  tags : list string
}.

(** A life event, as built by the input form (and by the reflection saver). *)
Record event : Type := mk_event {
  age : Z;
  title : string;
  category : string;
  description : string;
  sentiment : string;
  impact : Z;
  life_area : string;
  lessons_learned : string;
  current_perspective : string;
  timestamp : string;
  range : string;
  advanced : option advanced_details
}.

(** [st.session_state]. *)
Record session_state : Type := mk_session {
  life_events : list event;
  current_age : Z
}.

(** The state of a fresh session. *)
Definition initial_session : session_state :=
  {| life_events := []; current_age := 25 |}.

(** What a handler shows to the user. *)
Inductive notice : Type :=
  | success (text : string)
  | error (text : string).

(** The effect of one handler: the new session state, the notices shown, and
    whether the script run is ended by [st.rerun()]. *)
Record outcome : Type := mk_outcome {
  state : session_state;
  shown : list notice;
  rerun : bool
}.

(** A handler whose condition does not hold does nothing at all. *)
Definition no_effect (s : session_state) : outcome :=
  {| state := s; shown := []; rerun := false |}.

(** ** Age buckets *)

Definition age_buckets : list (string * list Z) :=
  [ ("0-5 (Infancy & Toddler)", Py.range 0 6);
    ("6-12 (Elementary School)", Py.range 6 13);
    ("13-17 (Teenage Years)", Py.range 13 18);
    ("18-22 (College/Early Adult)", Py.range 18 23);
    ("23-29 (Young Professional)", Py.range 23 30);
    ("30-39 (Career Building)", Py.range 30 40);
    ("40-49 (Midlife Growth)", Py.range 40 50);
    ("50-59 (Mature Wisdom)", Py.range 50 60);
    ("60+ (Golden Years)", Py.range 60 101) ].

(** The value stored under ["range"]:
    [next((k for k, v in age_buckets.items() if event_age in v), "Unknown")]. *)
Definition age_range (event_age : Z) : string :=
  Py.next_key (Py.contains event_age) age_buckets "Unknown".

(** The labels of all the buckets that contain an age. *)
Definition buckets_of (a : Z) : list string :=
  map fst (filter (fun kv => Py.contains a (snd kv)) age_buckets).

(** ** The event categories and life areas offered by the form *)

Definition event_categories : list string :=
  [ "🎓 Education & Learning";
    "💼 Career & Work";
    "❤️ Relationships & Family";
    "🏥 Health & Wellness";
    "🎯 Personal Achievement";
    "😢 Loss & Grief";
    "🌍 Travel & Adventure";
    "💰 Financial";
    "🏠 Living Situation";
    "🎨 Creative & Hobbies";
    "⚡ Life-Changing Moment";
    "🤝 Social & Community" ].

Definition life_areas : list string :=
  [ "Personal Growth"; "Relationships"; "Career"; "Health";
    "Family"; "Education"; "Finances"; "Spirituality"; "Recreation" ].

Definition sentiments : list string :=
  [ "Positive"; "Negative"; "Neutral"; "Mixed" ].

(** ** The handlers that change the event collection *)

(** The values of the widgets of the form ["enhanced_life_map_form"].  The
    widgets bound what can be entered: [event_age] comes from a number input
    with [min_value=0], [max_value=100], [impact_score] from a slider over
    1..10, and the category, sentiment and life area from select boxes over
    [event_categories], [sentiments] and [life_areas].  The submit handler
    itself takes the values as they come. *)
Record form_values : Type := mk_form {
  event_age : Z;
  event_category : string;
  event_title : string;
  form_sentiment : string;
  impact_score : Z;
  form_life_area : string;
  event_description : string;
  form_lessons_learned : string;
  form_current_perspective : string;
  form_duration : string;
  form_people_involved : string;
  form_location : string;
  form_tags : string
}.

(** The default offered by the age input of the form:
    [value=st.session_state.current_age]. *)
Definition default_event_age (s : session_state) : Z := current_age s.

(** The dictionary [new_event] built by the submit handler; [now] is
    [datetime.now().isoformat()]. *)
Definition new_event (show_advanced : bool) (now : string) (f : form_values)
    : event :=
  {| age := event_age f;
     title := event_title f;
     category := event_category f;
     description := event_description f;
     sentiment := form_sentiment f;
     impact := impact_score f;
     life_area := form_life_area f;
     lessons_learned := form_lessons_learned f;
     current_perspective := form_current_perspective f;
     timestamp := now;
     range := age_range (event_age f);
     advanced :=
       if show_advanced then
         Some {| duration := form_duration f;
                 people_involved := form_people_involved f;
                 location := form_location f;
                 tags := if Py.truthy (form_tags f)
                         then Py.split "," (form_tags f) else [] |}
       else None |}.

(** The handler of the "Add Event" button:
    [if submitted and event_title and event_description: ...]. *)
Definition add_event (show_advanced submitted : bool) (now : string)
    (f : form_values) (s : session_state) : outcome :=
  if submitted && Py.truthy (event_title f) && Py.truthy (event_description f)
  then
    {| state := {| life_events :=
                     life_events s ++ [new_event show_advanced now f];
                   current_age := event_age f |};
       shown := [success ("✅ Event '" ++ event_title f
                            ++ "' added successfully!")];
       rerun := true |}
  else no_effect s.

(** The handler of the "Delete" button of the row labelled [idx]:
    [[e for i, e in enumerate(life_events) if i != idx]].  The page offers
    the button for the rows it displays only; the handler is modelled for
    any label. *)
Definition delete_event (idx : Z) (s : session_state) : outcome :=
  {| state := {| life_events :=
                   map snd (filter (fun ie => negb (Z.of_nat (fst ie) =? idx))
                                   (Py.enumerate (life_events s)));
                 current_age := current_age s |};
     shown := [];
     rerun := true |}.

(** The handler of the "Clear All Events" button. *)
Definition clear_all_events (s : session_state) : outcome :=
  {| state := {| life_events := []; current_age := current_age s |};
     shown := [];
     rerun := true |}.

(** The event appended by the "Save Reflection" button. *)
Definition reflection_event (now selected_prompt reflection_text : string)
    (s : session_state) : event :=
  {| age := current_age s;
     title := "Personal Reflection";
     category := "🧠 Personal Growth";
     description := "Prompt: " ++ selected_prompt
                      ++ String "010" (String "010" "Reflection: ")
                      ++ reflection_text;
     sentiment := "Neutral";
     impact := 5;
     life_area := "Personal Growth";
     lessons_learned := "";
     current_perspective := "";
     timestamp := now;
     range := age_range (current_age s);
     advanced := None |}.

(** [if st.button("Save Reflection") and reflection_text: ...], offered on
    the "Insights & Coaching" page once the collection is not empty. *)
Definition save_reflection (clicked : bool)
    (now selected_prompt reflection_text : string) (s : session_state)
    : outcome :=
  if clicked && Py.truthy reflection_text then
    {| state := {| life_events :=
                     life_events s
                       ++ [reflection_event now selected_prompt
                                            reflection_text s];
                   current_age := current_age s |};
       shown := [success "✅ Reflection saved as a life event!"];
       rerun := false |}
  else no_effect s.

(** What [json.load(uploaded_file)] gave: the decoded list of records, or the
    text of the exception it raised. *)
Inductive loaded : Type :=
  | decoded (imported_data : list event)
  | raised (e : string).

(** The "Import Data" block: nothing without an uploaded file; an error
    notice when decoding raises; otherwise, when the button is pressed,
    [life_events.extend(imported_data)]. *)
Definition import_data (uploaded_file : option loaded) (clicked : bool)
    (s : session_state) : outcome :=
  match uploaded_file with
  | None => no_effect s
  | Some (raised e) =>
      {| state := s;
         shown := [error ("Error importing file: " ++ e)];
         rerun := false |}
  | Some (decoded imported_data) =>
      if clicked then
        {| state := {| life_events := life_events s ++ imported_data;
                       current_age := current_age s |};
           shown := [success ("✅ Imported "
                                ++ Py.str (length imported_data)
                                ++ " events!")];
           rerun := true |}
      else no_effect s
  end.

(** ** A stable sort

    pandas sorts with a stable algorithm wherever the script's results depend
    on the order of ties ([nlargest], [nsmallest] with [keep='first']).
    [sort leb] is insertion sort: an element goes before the first element
    not strictly smaller, so equal elements keep their original order. *)

Section StableSort.

Context {A : Type} (leb : A -> A -> bool).

Fixpoint insert (x : A) (l : list A) : list A :=
  match l with
  | [] => [x]
  | y :: rest => if leb x y then x :: l else y :: insert x rest
  end.

Definition sort (l : list A) : list A := fold_right insert [] l.

End StableSort.

(** ** The pandas operations used by the script *)

Module Pd.

(** A data frame is the list of its rows. *)
Definition DataFrame : Type := list event.

(** [len(df)] as a Python integer. *)
Definition len {A : Type} (l : list A) : Z := Z.of_nat (length l).

(** [Series.sum()] of an integer column. *)
Definition sum (xs : list Z) : Z := fold_right Z.add 0 xs.

(** [Series.mean()] of an integer column: the exact quotient, in lowest
    terms; [NaN] for an empty column. *)
Definition mean (xs : list Z) : option Q :=
  match xs with
  | [] => None
  | _ :: _ => Some (Qred (sum xs # Pos.of_nat (length xs)))
  end.

(** The number of rows satisfying a condition: [(cond).sum()], or the
    [len] of a frame filtered by the condition. *)
Definition count_if {A : Type} (p : A -> bool) (l : list A) : Z :=
  len (filter p l).

(** [(cond).mean()] of a boolean column: the fraction of [True]. *)
Definition fraction {A : Type} (p : A -> bool) (l : list A) : option Q :=
  match l with
  | [] => None
  | _ :: _ => Some (Qred (count_if p l # Pos.of_nat (length l)))
  end.

(** [Series.max()] and [Series.min()] of an integer column. *)
Definition max (xs : list Z) : option Z :=
  match xs with
  | [] => None
  | x :: rest => Some (fold_right Z.max x rest)
  end.

Definition min (xs : list Z) : option Z :=
  match xs with
  | [] => None
  | x :: rest => Some (fold_right Z.min x rest)
  end.

(** Comparisons of floats: false as soon as one side is [NaN]. *)
Definition Qltb (a b : Q) : bool :=
  match Qcompare a b with Lt => true | _ => false end.

Definition lt (a b : option Q) : bool :=
  match a, b with
  | Some x, Some y => Qltb x y
  | _, _ => false
  end.

Definition gt (a b : option Q) : bool := lt b a.

(** [Series.unique()]: the distinct values, in order of first appearance. *)
Fixpoint unique (l : list string) : list string :=
  match l with
  | [] => []
  | x :: rest => x :: filter (fun y => negb (String.eqb y x)) (unique rest)
  end.

(** [Series.nunique()]. *)
Definition nunique (l : list string) : Z := len (unique l).

(** How often a value occurs in a column. *)
Definition occurrences (k : string) (l : list string) : nat :=
  count_occ string_dec l k.

(** The highest number of occurrences of a value of the column. *)
Definition max_occurrences (l : list string) : nat :=
  list_max (map (fun k => occurrences k l) l).

(** [Series.mode()]: the values that occur most often, sorted. *)
Definition mode (l : list string) : list string :=
  sort String.leb
    (filter (fun k => Nat.eqb (occurrences k l) (max_occurrences l))
            (unique l)).

(** [.iloc[0]], which raises [IndexError] on an empty series. *)
Definition iloc0 {A : Type} (l : list A) : option A := hd_error l.

(** [Series.value_counts()]: each distinct value with its number of
    occurrences, most frequent first; values that occur equally often are
    kept in order of first appearance. *)
Definition value_counts (l : list string) : list (string * nat) :=
  sort (fun a b => Nat.leb (snd b) (snd a))
       (map (fun k => (k, occurrences k l)) (unique l)).

(** [counts.get(key, 0)]. *)
Fixpoint get (key : string) (counts : list (string * nat)) : Z :=
  match counts with
  | [] => 0
  | (k, c) :: rest => if String.eqb k key then Z.of_nat c else get key rest
  end.

(** [df.nlargest(n, 'age')] and [df.nsmallest(n, 'age')], with the default
    [keep='first']: the first [n] rows in descending (ascending) order of
    age, rows of equal age in their original order. *)
Definition nlargest (n : nat) (df : DataFrame) : DataFrame :=
  firstn n (sort (fun a b => age b <=? age a) df).

Definition nsmallest (n : nat) (df : DataFrame) : DataFrame :=
  firstn n (sort (fun a b => age a <=? age b) df).

(** The order of the keys of [groupby(['range', 'sentiment'])]: by the first
    component, then by the second. *)
Definition pair_leb (a b : string * string) : bool :=
  if String.eqb (fst a) (fst b) then String.leb (snd a) (snd b)
  else String.leb (fst a) (fst b).

Definition pair_eqb (a b : string * string) : bool :=
  String.eqb (fst a) (fst b) && String.eqb (snd a) (snd b).

Fixpoint unique_pairs (l : list (string * string)) : list (string * string) :=
  match l with
  | [] => []
  | x :: rest => x :: filter (fun y => negb (pair_eqb y x)) (unique_pairs rest)
  end.

(** [df.groupby(['range', 'sentiment']).size()]: the observed pairs, sorted,
    each with its number of rows. *)
Definition groupby_size (keys : list (string * string))
    : list ((string * string) * Z) :=
  map (fun k => (k, count_if (pair_eqb k) keys))
      (sort pair_leb (unique_pairs keys)).

(** *** Correlation

    [Series.corr(other)], with its default [method='pearson']: the
    covariance of the two columns divided by the product of their standard
    deviations, both normalised by [n - 1]; [NaN] when there are fewer than
    two rows or when that division is 0/0.  This is the exact value, which
    the [float64] of numpy rounds; the last digits of that rounding can
    depend on the order of the rows, which the exact value does not show. *)

(** The sum of a real-valued function over the rows. *)
Definition rsum {A : Type} (f : A -> R) (l : list A) : R :=
  fold_right (fun a acc => (f a + acc)%R) 0%R l.

Definition rmean (xs : list Z) : R :=
  (IZR (sum xs) / INR (length xs))%R.

(** The sum of the products of the deviations from the means. *)
Definition codeviation (xs ys : list Z) : R :=
  rsum (fun p => ((IZR (fst p) - rmean xs) * (IZR (snd p) - rmean ys))%R)
       (combine xs ys).

(** [Series.cov] and [Series.std], with pandas' default [ddof=1]. *)
Definition cov (xs ys : list Z) : R :=
  (codeviation xs ys / (INR (length xs) - 1))%R.

Definition std (xs : list Z) : R := sqrt (cov xs xs).

Definition corr (xs ys : list Z) : option R :=
  if (length xs <? 2)%nat then None
  else if Req_dec_T (std xs * std ys) 0 then None
  else Some (cov xs ys / (std xs * std ys))%R.

End Pd.

(** ** Insights: the patterns detected on the "Insights & Coaching" page

    The page computes them from [df = pd.DataFrame(life_events)], and only
    when the collection is not empty. *)

(** [df['life_area'].mode().iloc[0]]: the primary focus area. *)
Definition top_area (df : Pd.DataFrame) : option string :=
  Pd.iloc0 (Pd.mode (map life_area df)).

(** [(df['life_area'] == top_area).sum()]. *)
Definition area_count (df : Pd.DataFrame) (area : string) : Z :=
  Pd.count_if (fun e => String.eqb (life_area e) area) df.

(** The mean impact of the three rows of largest age, and of smallest age. *)
Definition recent_avg (df : Pd.DataFrame) : option Q :=
  Pd.mean (map impact (Pd.nlargest 3 df)).

Definition early_avg (df : Pd.DataFrame) : option Q :=
  Pd.mean (map impact (Pd.nsmallest 3 df)).

Definition increasing_line : string :=
  "• **Growth trajectory:** Increasing impact over time ↗️".

Definition stabilizing_line : string :=
  "• **Growth trajectory:** Stabilizing experiences ➡️".

(** The growth-trajectory line written by the page, if any:
    [if len(df) >= 3: ... if recent_avg > early_avg: ... else: ...]. *)
Definition growth_trajectory (df : Pd.DataFrame) : option string :=
  if 3 <=? Pd.len df then
    if Pd.gt (recent_avg df) (early_avg df) then Some increasing_line
    else Some stabilizing_line
  else None.

(** ** Coaching recommendations *)

Record recommendation : Type := mk_recommendation {
  area : string;
  advice : string;
  action : string
}.

Definition mindset_recommendation : recommendation :=
  {| area := "Mindset & Perspective";
     advice := "Practice gratitude journaling to identify more positive moments in your daily life.";
     action := "Write down 3 positive things each day for the next week." |}.

Definition goal_recommendation : recommendation :=
  {| area := "Goal Setting";
     advice := "Set more ambitious goals to create meaningful, high-impact experiences.";
     action := "Identify one area where you want to create a significant positive change." |}.

Definition balance_recommendation (focus : string) : recommendation :=
  {| area := "Life Balance";
     advice := "You're heavily focused on " ++ focus
                 ++ ". Consider diversifying your experiences.";
     action := "Plan one activity in a different life area this month." |}.

Definition stress_recommendation : recommendation :=
  {| area := "Stress Management";
     advice := "Recent events show some challenges. Focus on stress management and self-care.";
     action := "Implement a daily 10-minute mindfulness or relaxation practice." |}.

Definition is_positive (e : event) : bool := String.eqb (sentiment e) "Positive".
Definition is_negative (e : event) : bool := String.eqb (sentiment e) "Negative".

(** [(df['sentiment'] == 'Positive').mean()]. *)
Definition positive_ratio (df : Pd.DataFrame) : option Q :=
  Pd.fraction is_positive df.

(** Rule 1: [if positive_ratio < 0.4]. *)
Definition rule_sentiment (df : Pd.DataFrame) : list recommendation :=
  if Pd.lt (positive_ratio df) (Some (4 # 10)) then [mindset_recommendation]
  else [].

(** Rule 2: [if len(df[df['impact'] >= 8]) < len(df) * 0.3]. *)
Definition rule_impact (df : Pd.DataFrame) : list recommendation :=
  if Pd.Qltb (inject_Z (Pd.count_if (fun e => 8 <=? impact e) df))
             (inject_Z (Pd.len df) * (3 # 10))
  then [goal_recommendation] else [].

(** Rule 3: [if life_area_counts.iloc[0] > len(df) * 0.5], naming
    [life_area_counts.index[0]]. *)
Definition rule_life_area (df : Pd.DataFrame) : list recommendation :=
  match Pd.iloc0 (Pd.value_counts (map life_area df)) with
  | Some (focus, n) =>
      if Pd.Qltb (inject_Z (Pd.len df) * (5 # 10)) (inject_Z (Z.of_nat n))
      then [balance_recommendation focus] else []
  | None => []
  end.

(** Rule 4: [if len(df) >= 5], on the five rows of largest age:
    [if (recent_events['sentiment'] == 'Negative').sum() >= 3]. *)
Definition rule_recent (df : Pd.DataFrame) : list recommendation :=
  if 5 <=? Pd.len df then
    if 3 <=? Pd.count_if is_negative (Pd.nlargest 5 df)
    then [stress_recommendation] else []
  else [].

(** The list [recommendations], in the order the rules append to it. *)
Definition recommendations (df : Pd.DataFrame) : list recommendation :=
  rule_sentiment df ++ rule_impact df ++ rule_life_area df ++ rule_recent df.

(** ** Overview: the metrics of the "Visual Analytics" page

    Computed from [df = pd.DataFrame(life_events)], and only when the
    collection is not empty. *)

(** [df['category'].mode().iloc[0]], before the leading emoji is cut off for
    display. *)
Definition most_common_category (df : Pd.DataFrame) : option string :=
  Pd.iloc0 (Pd.mode (map category df)).

(** Arithmetic on two [numpy.int64] scalars wraps around at 64 bits. *)
Definition wrap_int64 (z : Z) : Z := (z + 2 ^ 63) mod 2 ^ 64 - 2 ^ 63.

(** [df['age'].max() - df['age'].min()]: the two ends are [int64] scalars
    of the age column, and so is their difference. *)
Definition age_span (df : Pd.DataFrame) : option Z :=
  match Pd.max (map age df), Pd.min (map age df) with
  | Some hi, Some lo => Some (wrap_int64 (hi - lo))
  | _, _ => None
  end.

(** [df['age'].corr(df['impact'])]. *)
Definition correlation (df : Pd.DataFrame) : option R :=
  Pd.corr (map age df) (map impact df).

(** [df.groupby(['range', 'sentiment']).size()]. *)
Definition range_counts (df : Pd.DataFrame) : list ((string * string) * Z) :=
  Pd.groupby_size (map (fun e => (range e, sentiment e)) df).

(** [df['category'].value_counts()] and [df['sentiment'].value_counts()]. *)
Definition category_counts (df : Pd.DataFrame) : list (string * nat) :=
  Pd.value_counts (map category df).

Definition sentiment_counts (df : Pd.DataFrame) : list (string * nat) :=
  Pd.value_counts (map sentiment df).

(** The values the page derives from the collection. *)
Record overview : Type := mk_overview {
  total_events : Z;
  avg_impact : option Q;
  span : option Z;
  top_category : option string;
  by_range_and_sentiment : list ((string * string) * Z);
  age_impact_correlation : option R
}.

Definition compute_overview (df : Pd.DataFrame) : overview :=
  {| total_events := Pd.len df;
     avg_impact := Pd.mean (map impact df);
     span := age_span df;
     top_category := most_common_category df;
     by_range_and_sentiment := range_counts df;
     age_impact_correlation := correlation df |}.

(** ** Bounds enforced by the widgets of the form

    What the number input, the slider, the select boxes and the submit
    condition together let through.  Nothing else in the script checks an
    event. *)
Definition within_form_bounds (e : event) : bool :=
  (0 <=? age e) && (age e <=? 100)
  && (1 <=? impact e) && (impact e <=? 10)
  && Py.truthy (title e) && Py.truthy (description e)
  && existsb (String.eqb (category e)) event_categories
  && existsb (String.eqb (sentiment e)) sentiments
  && existsb (String.eqb (life_area e)) life_areas.

(** ** Sample data for the worked examples *)

(** An event with the given age, impact, category, sentiment and life area,
    as the form builds it without the advanced options. *)
Definition sample_event (a i : Z) (cat sen area : string) : event :=
  {| age := a;
     title := "Sample";
     category := cat;
     description := "A sample event";
     sentiment := sen;
     impact := i;
     life_area := area;
     lessons_learned := "";
     current_perspective := "";
     timestamp := "2024-01-01T00:00:00";
     range := age_range a;
     advanced := None |}.

(** Form values with the given age, title and impact. *)
Definition sample_form (a : Z) (t : string) (i : Z) : form_values :=
  {| event_age := a;
     event_category := "💼 Career & Work";
     event_title := t;
     form_sentiment := "Positive";
     impact_score := i;
     form_life_area := "Career";
     event_description := "A sample event";
     form_lessons_learned := "";
     form_current_perspective := "";
     form_duration := "Moment";
     form_people_involved := "";
     form_location := "";
     form_tags := "" |}.

(** Three records of an uploaded file, the second with an impact of 99. *)
Definition sample_import : list event :=
  [ sample_event 20 5 "💼 Career & Work" "Positive" "Career";
    sample_event 30 99 "💼 Career & Work" "Positive" "Career";
    sample_event 40 7 "💼 Career & Work" "Negative" "Health" ].

(** Two events whose categories, and whose life areas, occur once each. *)
Definition sample_tie : list event :=
  [ sample_event 20 5 "🎓 Education & Learning" "Positive" "Personal Growth";
    sample_event 30 5 "❤️ Relationships & Family" "Positive" "Career" ].

(** ** The tie-break of the written specification

    The specification breaks a tie between most frequent values by the
    order of the fixed list of categories (of life areas): the first value
    of the enumeration that occurs most often in the column. *)
Definition first_tied_in_enumeration (enumeration col : list string)
    : option string :=
  find (fun c => Nat.eqb (Pd.occurrences c col) (Pd.max_occurrences col))
       enumeration.

(** ** Selections by age

    [sel] is a choice of [n] rows of [df] of largest (smallest) age: no row
    left out is older (younger) than a row chosen. *)
Definition largest_by_age (n : nat) (sel df : list event) : Prop :=
  length sel = n
  /\ exists rest, Permutation df (sel ++ rest)
                  /\ forall x y, In x sel -> In y rest -> age y <= age x.

Definition smallest_by_age (n : nat) (sel df : list event) : Prop :=
  length sel = n
  /\ exists rest, Permutation df (sel ++ rest)
                  /\ forall x y, In x sel -> In y rest -> age x <= age y.

(** Five events of ages 10, 20, 30, 40, 50 and impacts 2, 2, 2, 8, 8. *)
Definition sample_growth : list event :=
  [ sample_event 10 2 "💼 Career & Work" "Positive" "Career";
    sample_event 20 2 "💼 Career & Work" "Positive" "Career";
    sample_event 30 2 "💼 Career & Work" "Positive" "Career";
    sample_event 40 8 "💼 Career & Work" "Positive" "Career";
    sample_event 50 8 "💼 Career & Work" "Positive" "Career" ].

(** Ten events, the first [k] of them Positive and the others Negative. *)
Definition sample_ten (k : nat) : list event :=
  repeat (sample_event 30 5 "💼 Career & Work" "Positive" "Career") k
  ++ repeat (sample_event 30 5 "💼 Career & Work" "Negative" "Career")
            (10 - k).

(** ** The Pearson coefficient of the written specification

    The specification computes the coefficient from the means of the two
    series: their covariance (the mean product of the deviations) divided by
    the square root of the product of their variances. *)
Definition population_cov (xs ys : list Z) : R :=
  (Pd.codeviation xs ys / INR (length xs))%R.

Definition pearson (xs ys : list Z) : R :=
  (population_cov xs ys
   / sqrt (population_cov xs xs * population_cov ys ys))%R.

(** A series of zero variance: all its values are the same. *)
Definition constant (xs : list Z) : Prop :=
  forall x y, In x xs -> In y xs -> x = y.

(** Three events with the (age, impact) pairs (10, 3), (25, 9), (40, 6). *)
Definition sample_pairs : list event :=
  [ sample_event 10 3 "💼 Career & Work" "Positive" "Career";
    sample_event 25 9 "💼 Career & Work" "Positive" "Career";
    sample_event 40 6 "💼 Career & Work" "Positive" "Career" ].

(** ** More Python built-ins: text *)

Module PyText.

(** [c.lower()] on an ASCII letter; any other byte is kept.  (Lowering a
    character outside ASCII yields no run of the ASCII letters looked for
    below, so the byte-wise reading decides the same searches.) *)
Definition lower_char (c : ascii) : ascii :=
  let n := nat_of_ascii c in
  if (Nat.leb 65 n && Nat.leb n 90)%bool then ascii_of_nat (n + 32) else c.

(** [s.lower()]. *)
Fixpoint lower (s : string) : string :=
  match s with
  | EmptyString => EmptyString
  | String c rest => String (lower_char c) (lower rest)
  end.

(** [needle in hay] for strings. *)
Fixpoint contains (needle hay : string) : bool :=
  match hay with
  | EmptyString => String.prefix needle EmptyString
  | String _ rest => String.prefix needle hay || contains needle rest
  end.

(** [sep.join(l)]. *)
Fixpoint join (sep : string) (l : list string) : string :=
  match l with
  | [] => EmptyString
  | [x] => x
  | x :: rest => x ++ sep ++ join sep rest
  end.

End PyText.

(** ** The rows displayed on the input page

    [display_df]: the rows of the collection, each under its label, kept by
    the sentiment filter ([filter_sentiment != "All"] selects one sentiment).
    The page then orders them with [sort_values], which moves rows without
    changing them or their labels; the order is left out here. *)
Definition displayed_rows (filter_sentiment : string) (s : session_state)
    : list (nat * event) :=
  filter (fun ie => String.eqb filter_sentiment "All"
                    || String.eqb (sentiment (snd ie)) filter_sentiment)
         (Py.enumerate (life_events s)).

(** ** Sessions as sequences of user actions *)

Inductive user_action : Type :=
  | submit_form (show_advanced : bool) (now : string) (f : form_values)
  | press_delete (idx : Z)
  | press_clear_all
  | press_save_reflection (now selected_prompt reflection_text : string)
  | press_import (imported_data : list event).

(** The session state after the handler of an action has run. *)
Definition step (s : session_state) (a : user_action) : session_state :=
  match a with
  | submit_form show_advanced now f =>
      state (add_event show_advanced true now f s)
  | press_delete idx => state (delete_event idx s)
  | press_clear_all => state (clear_all_events s)
  | press_save_reflection now selected_prompt reflection_text =>
      state (save_reflection true now selected_prompt reflection_text s)
  | press_import imported_data =>
      state (import_data (Some (decoded imported_data)) true s)
  end.

Definition run (actions : list user_action) (s : session_state)
    : session_state :=
  fold_left step actions s.

(** What the widgets of the form can hold: the bounds of the number input
    and of the slider, and the options of the three select boxes. *)
Definition from_widgets (f : form_values) : Prop :=
  0 <= event_age f <= 100
  /\ 1 <= impact_score f <= 10
  /\ In (event_category f) event_categories
  /\ In (form_sentiment f) sentiments
  /\ In (form_life_area f) life_areas.

(** An action other than an import, its form values held by the widgets. *)
Definition through_the_pages (a : user_action) : Prop :=
  match a with
  | submit_form _ _ f => from_widgets f
  | press_import _ => False
  | _ => True
  end.

(** What holds of every event entered through the pages. *)
Definition entered_through_the_pages (e : event) : Prop :=
  0 <= age e <= 100
  /\ 1 <= impact e <= 10
  /\ range e = age_range (age e)
  /\ range e <> "Unknown"
  /\ In (sentiment e) sentiments
  /\ In (life_area e) life_areas.

(** The invariant of the sessions that only go through the pages. *)
Definition page_invariant (s : session_state) : Prop :=
  0 <= current_age s <= 100
  /\ Forall entered_through_the_pages (life_events s).

(** ** Boxes shown by the analytics page *)

Inductive box : Type :=
  | st_success (text : string)
  | st_warning (text : string)
  | st_info (text : string).

(** [sentiment_counts.get('Positive', 0) / len(df)]. *)
Definition analytics_positive_ratio (df : Pd.DataFrame) : option Q :=
  match df with
  | [] => None
  | _ :: _ =>
      Some (Qred (Pd.get "Positive" (sentiment_counts df)
                  # Pos.of_nat (length df)))
  end.

(** The "Sentiment Balance" box, drawn only for a non-empty collection and
    under [if show_advanced:] (the sidebar box, off by default):
    [if positive_ratio > 0.6 ... elif positive_ratio < 0.4 ... else ...]. *)
Definition sentiment_balance (show_advanced : bool) (df : Pd.DataFrame)
    : option box :=
  match df with
  | [] => None
  | _ :: _ =>
      if show_advanced then
        Some (if Pd.gt (analytics_positive_ratio df) (Some (6 # 10))
              then st_success "Predominantly positive life experiences"
              else if Pd.lt (analytics_positive_ratio df) (Some (4 # 10))
              then st_warning "More challenging experiences recorded"
              else st_info "Balanced mix of experiences")
      else None
  end.

(** The "Age vs Impact Correlation" box, drawn under the same two
    conditions: [if correlation > 0.3 ... elif correlation < -0.3 ...
    else ...]; every comparison with NaN is false. *)
Definition correlation_box (show_advanced : bool) (df : Pd.DataFrame)
    : option box :=
  match df with
  | [] => None
  | _ :: _ =>
      if show_advanced then
        Some (match correlation df with
              | Some r =>
                  if Rlt_dec (3 / 10) r
                  then st_success "Strong positive correlation: Impact tends to increase with age"
                  else if Rlt_dec r (- (3 / 10))
                  then st_warning "Strong negative correlation: Impact tends to decrease with age"
                  else st_info "Weak correlation: No clear age-impact pattern"
              | None =>
                  st_info "Weak correlation: No clear age-impact pattern"
              end)
      else None
  end.

(** ** Strengths and opportunities on the "Insights & Coaching" page *)

(** [if positive_ratio > 0.5 ... else ...]. *)
Definition positive_line (df : Pd.DataFrame) : string :=
  if Pd.gt (positive_ratio df) (Some (5 # 10))
  then "• **Strength:** Recognizing positive experiences"
  else "• **Opportunity:** Focus on positive moments".

(** [if df['life_area'].nunique() >= 5 ... else ...]. *)
Definition balance_line (df : Pd.DataFrame) : string :=
  if 5 <=? Pd.nunique (map life_area df)
  then "• **Balance:** Well-rounded life experiences"
  else "• **Opportunity:** Explore diverse life areas".

(** ** Progress tracking *)

(** [len([e for e in life_events
          if "reflection" in e.get('title', '').lower()])]. *)
Definition reflection_events (events : list event) : Z :=
  Pd.len (filter (fun e => PyText.contains "reflection"
                             (PyText.lower (title e))) events).

(** The list [milestones], built only inside [if len(df) >= 3:]. *)
Definition milestones (df : Pd.DataFrame) : option (list string) :=
  if 3 <=? Pd.len df then
    Some ((if 5 <=? Pd.len df
           then ["✅ Documented 5+ life events"] else [])
          ++ (if 10 <=? Pd.len df
              then ["✅ Reached 10+ life events"] else [])
          ++ (if 1 <=? reflection_events df
              then ["✅ Added personal reflections"] else [])
          ++ (if 5 <=? Pd.nunique (map life_area df)
              then ["✅ Explored 5+ life areas"] else []))%list
  else None.

(** The list [goals] of suggested goals. *)
Definition goals (df : Pd.DataFrame) : list string :=
  ((if Pd.len df <? 10
    then [("Document " ++ Py.str (Z.to_nat (10 - Pd.len df))
             ++ " more life events")%string] else [])
   ++ (if reflection_events df <? 3
       then [("Add " ++ Py.str (Z.to_nat (3 - reflection_events df))
                ++ " more reflections")%string] else [])
   ++ (if Pd.nunique (map life_area df) <? 6
       then ["Explore more diverse life areas"] else []))%list.

(** ** More sample data *)

(** Six events of one age, three Negative and then three Positive. *)
Definition sample_same_age : list event :=
  repeat (sample_event 30 5 "💼 Career & Work" "Negative" "Career") 3
  ++ repeat (sample_event 30 9 "💼 Career & Work" "Positive" "Health") 3.

(** * Verified properties *)

(** ** Age buckets *)

Section AgeBuckets.

#[local] Open Scope Z_scope.

(** Membership in [list(range(lo, hi))] is the test [lo <= x < hi]. *)
Lemma contains_range (x lo hi : Z) :
  Py.contains x (Py.range lo hi) = (lo <=? x) && (x <? hi).
Proof.
  apply eq_true_iff_eq.
  unfold Py.contains, Py.range.
  rewrite existsb_exists, andb_true_iff, Z.leb_le, Z.ltb_lt.
  split.
  - intros [y [Hin Heq]].
    apply Z.eqb_eq in Heq. subst y.
    apply in_map_iff in Hin. destruct Hin as [i [Hi Hseq]].
    apply in_seq in Hseq. lia.
  - intros [Hlo Hhi].
    exists x. split; [ | apply Z.eqb_refl ].
    apply in_map_iff. exists (Z.to_nat (x - lo)).
    split; [ lia | apply in_seq; lia ].
Qed.

End AgeBuckets.

(** Decides every bound test on an age from the hypotheses in scope. *)
Ltac decide_bounds :=
  repeat match goal with
         | |- context [ (?x <=? ?y)%Z ] =>
             first [ rewrite (proj2 (Z.leb_le x y)) by lia
                   | rewrite (proj2 (Z.leb_gt x y)) by lia ]
         | |- context [ (?x <? ?y)%Z ] =>
             first [ rewrite (proj2 (Z.ltb_lt x y)) by lia
                   | rewrite (proj2 (Z.ltb_ge x y)) by lia ]
         end.

Ltac bucket_of_age :=
  unfold buckets_of, age_range, age_buckets;
  cbn [Py.next_key filter snd fst map];
  rewrite ?contains_range; decide_bounds; reflexivity.

(** C3, as stated, fails above 100: the lookup falls through every bucket to
    its default ["Unknown"]; the last bucket stops at 100. *)
Lemma age_range_above_100_is_unknown :
  age_range 101 = "Unknown" /\ age_range 101 <> "60+ (Golden Years)".
Proof.
  split; [ reflexivity | discriminate ].
Qed.

(** C3 (amended): [age_range] is a total function of the age; every age of
    0..100 lies in exactly one of the nine buckets 0-5, 6-12, 13-17, 18-22,
    23-29, 30-39, 40-49, 50-59, 60-100, whose label it returns (so 0 and 5
    give the 0-5 bucket, 6 the 6-12 bucket, 59 the 50-59 bucket, 60 and 100
    the 60+ bucket); an age above 100 or below 0 lies in no bucket and gives
    ["Unknown"]. *)
Theorem age_range_buckets (a : Z) :
  (0 <= a <= 100 -> buckets_of a = [age_range a]) /\
  (0 <= a <= 5 -> age_range a = "0-5 (Infancy & Toddler)") /\
  (6 <= a <= 12 -> age_range a = "6-12 (Elementary School)") /\
  (13 <= a <= 17 -> age_range a = "13-17 (Teenage Years)") /\
  (18 <= a <= 22 -> age_range a = "18-22 (College/Early Adult)") /\
  (23 <= a <= 29 -> age_range a = "23-29 (Young Professional)") /\
  (30 <= a <= 39 -> age_range a = "30-39 (Career Building)") /\
  (40 <= a <= 49 -> age_range a = "40-49 (Midlife Growth)") /\
  (50 <= a <= 59 -> age_range a = "50-59 (Mature Wisdom)") /\
  (60 <= a <= 100 -> age_range a = "60+ (Golden Years)") /\
  (a < 0 \/ 100 < a -> age_range a = "Unknown" /\ buckets_of a = []).
Proof.
  repeat match goal with |- _ /\ _ => split end; intros H;
    try bucket_of_age.
  - assert (Hcases : a <= 5 \/ 6 <= a <= 12 \/ 13 <= a <= 17 \/ 18 <= a <= 22
                     \/ 23 <= a <= 29 \/ 30 <= a <= 39 \/ 40 <= a <= 49
                     \/ 50 <= a <= 59 \/ 60 <= a) by lia.
    repeat (destruct Hcases as [Hc | Hcases]); bucket_of_age.
  - destruct H; split; bucket_of_age.
Qed.

(** ** The event store *)

Section EventStore.

Variables (show_advanced : bool) (now : string).

(** The submit handler appends exactly when the button was pressed and both
    the title and the description are non-empty; otherwise it does nothing. *)
Lemma add_event_accepted (f : form_values) (s : session_state) :
  Py.truthy (event_title f) = true ->
  Py.truthy (event_description f) = true ->
  add_event show_advanced true now f s =
    {| state := {| life_events :=
                     life_events s ++ [new_event show_advanced now f];
                   current_age := event_age f |};
       shown := [success ("✅ Event '" ++ event_title f
                            ++ "' added successfully!")];
       rerun := true |}.
Proof.
  intros Ht Hd. unfold add_event. rewrite Ht, Hd. reflexivity.
Qed.

Lemma add_event_ignored (submitted : bool) (f : form_values)
    (s : session_state) :
  submitted = false \/ event_title f = "" \/ event_description f = "" ->
  add_event show_advanced submitted now f s = no_effect s.
Proof.
  unfold add_event.
  intros [-> | [-> | ->]]; cbn [Py.truthy andb]; try reflexivity.
  - destruct submitted; reflexivity.
  - destruct submitted, (Py.truthy (event_title f)); reflexivity.
Qed.

End EventStore.

(** Enumerating from [k], the rows whose label differs from [idx] are all
    the rows when [idx] labels none of them. *)
Lemma filter_label_out_of_range {A : Type} (idx : Z) (l : list A) :
  forall k : nat,
    idx < Z.of_nat k \/ Z.of_nat (k + length l) <= idx ->
    map snd (filter (fun ie : nat * A => negb (Z.of_nat (fst ie) =? idx))
                    (combine (seq k (length l)) l)) = l.
Proof.
  induction l as [ | x l IH ]; intros k Hk; [ reflexivity | ].
  cbn [length seq combine filter fst].
  cbn [length] in Hk.
  replace (Z.of_nat k =? idx) with false by (symmetry; apply Z.eqb_neq; lia).
  cbn [negb map snd]. f_equal.
  apply IH. lia.
Qed.

(** Enumerating from [k], dropping the row labelled [idx] removes the row at
    position [idx - k] and keeps the others in order. *)
Lemma filter_label_in_range {A : Type} (l : list A) :
  forall (k i : nat),
    (i < length l)%nat ->
    map snd (filter (fun ie : nat * A =>
                       negb (Z.of_nat (fst ie) =? Z.of_nat (k + i)))
                    (combine (seq k (length l)) l))
    = (firstn i l ++ skipn (S i) l)%list.
Proof.
  induction l as [ | x l IH ]; intros k i Hi; [ cbn in Hi; lia | ].
  cbn [length seq combine filter fst].
  destruct i as [ | i ].
  - replace (k + 0)%nat with k by lia.
    rewrite Z.eqb_refl. cbn [negb firstn skipn app].
    apply filter_label_out_of_range. lia.
  - replace (Z.of_nat k =? Z.of_nat (k + S i)) with false
      by (symmetry; apply Z.eqb_neq; lia).
    cbn [negb map snd firstn skipn app]. f_equal.
    replace (k + S i)%nat with (S k + i)%nat by lia.
    apply IH. cbn in Hi. lia.
Qed.

(** C2, as stated, fails: the submit handler checks neither the age nor the
    impact, so values of 150 and of 0 are appended (the age under the range
    ["Unknown"]); and an empty title is refused silently, no error naming a
    field being shown. *)
Lemma add_event_appends_age_150_and_impact_0 :
  life_events (state (add_event false true "t0" (sample_form 150 "Moved" 5)
                                initial_session))
    = [new_event false "t0" (sample_form 150 "Moved" 5)]
  /\ range (new_event false "t0" (sample_form 150 "Moved" 5)) = "Unknown"
  /\ life_events (state (add_event false true "t0" (sample_form 30 "Moved" 0)
                                   initial_session))
    = [new_event false "t0" (sample_form 30 "Moved" 0)]
  /\ shown (add_event false true "t0" (sample_form 30 "" 5) initial_session)
    = [].
Proof.
  repeat split.
Qed.

(** C2 (amended): a submission with an empty title or an empty description
    leaves the session (the collection and the stored age) exactly
    unchanged, showing nothing and raising nothing; the handler checks no
    other field, so a submission with a non-empty title and description is
    appended whatever its age and impact, which only the form widgets
    bound. *)
Theorem add_event_checks_only_title_and_description
    (show_advanced : bool) (now : string) (f : form_values)
    (s : session_state) :
  (event_title f = "" \/ event_description f = "" ->
     forall submitted,
       add_event show_advanced submitted now f s
         = {| state := s; shown := []; rerun := false |}) /\
  (event_title f <> "" /\ event_description f <> "" ->
     life_events (state (add_event show_advanced true now f s))
       = (life_events s ++ [new_event show_advanced now f])%list).
Proof.
  split.
  - intros H submitted. apply add_event_ignored. tauto.
  - intros [Ht Hd].
    rewrite add_event_accepted; [ reflexivity | | ].
    + destruct (event_title f); [ congruence | reflexivity ].
    + destruct (event_description f); [ congruence | reflexivity ].
Qed.

(** C5, as stated, fails: deleting at index 0 of an empty collection shows
    no error and raises nothing; the handler rebuilds the (empty) list and
    ends the run with [st.rerun()] as after any deletion. *)
Lemma delete_event_on_empty_reports_nothing :
  delete_event 0 initial_session
    = {| state := initial_session; shown := []; rerun := true |}.
Proof.
  reflexivity.
Qed.

(** C5 (amended): for every out-of-range index, in particular index 0 on an
    empty collection, the delete handler leaves the session exactly
    unchanged (an empty store still has 0 records); it reports no error. *)
Theorem delete_event_out_of_range (idx : Z) (s : session_state) :
  idx < 0 \/ Pd.len (life_events s) <= idx ->
  delete_event idx s = {| state := s; shown := []; rerun := true |}.
Proof.
  intros H. unfold delete_event, Py.enumerate.
  rewrite filter_label_out_of_range by (unfold Pd.len in H; lia).
  destruct s; reflexivity.
Qed.

(** Index 0 on the empty collection of a fresh session. *)
Lemma delete_event_out_of_range_witness :
  (0 < 0 \/ Pd.len (life_events initial_session) <= 0)
  /\ delete_event 0 initial_session
     = {| state := initial_session; shown := []; rerun := true |}.
Proof.
  assert (H : 0 < 0 \/ Pd.len (life_events initial_session) <= 0)
    by (right; discriminate).
  split; [ exact H | exact (delete_event_out_of_range 0 initial_session H) ].
Defined.

(** Within range, the delete handler removes the row at that position and
    keeps the other rows in order. *)
Lemma delete_event_in_range (i : nat) (s : session_state) :
  (i < length (life_events s))%nat ->
  life_events (state (delete_event (Z.of_nat i) s))
    = (firstn i (life_events s) ++ skipn (S i) (life_events s))%list.
Proof.
  intros H. unfold delete_event, Py.enumerate. cbn [state life_events].
  apply (filter_label_in_range (life_events s) 0 i H).
Qed.

(** C1, as stated, fails: the import applies no validation.  Of three
    records whose second has an impact of 99, outside every bound of the
    form, all three are appended and 3 is the number reported. *)
Lemma import_data_keeps_invalid_record :
  map within_form_bounds sample_import = [true; false; true]
  /\ life_events (state (import_data (Some (decoded sample_import)) true
                                     initial_session))
     = sample_import
  /\ shown (import_data (Some (decoded sample_import)) true initial_session)
     = [success "✅ Imported 3 events!"].
Proof.
  repeat split.
Qed.

(** C1 (amended): for every sequence of records passed to the import, no
    record is validated or skipped: all of them are appended to the
    collection in input order, whatever their fields, and the number
    reported is the length of the input, which is exactly the number by
    which the collection grew (3 records with the 2nd invalid: 3 reported,
    the collection grows by 3). *)
Theorem import_data_appends_every_record
    (imported_data : list event) (s : session_state) :
  let out := import_data (Some (decoded imported_data)) true s in
  life_events (state out) = (life_events s ++ imported_data)%list
  /\ current_age (state out) = current_age s
  /\ shown out = [success ("✅ Imported " ++ Py.str (length imported_data)
                              ++ " events!")]
  /\ (length (life_events (state out))
      = length (life_events s) + length imported_data)%nat
  /\ forall (i : nat) (r : event),
       nth_error imported_data i = Some r ->
       nth_error (life_events (state out)) (length (life_events s) + i)
         = Some r.
Proof.
  cbn [import_data state life_events current_age shown].
  repeat match goal with |- _ /\ _ => split end; try reflexivity.
  - apply length_app.
  - intros i r H.
    rewrite nth_error_app2 by lia.
    replace (length (life_events s) + i - length (life_events s))%nat
      with i by lia.
    exact H.
Qed.

(** The import does nothing without a file or before the button is pressed,
    and only shows the error when the file cannot be decoded. *)
Lemma import_data_otherwise (s : session_state) :
  import_data None true s = no_effect s
  /\ (forall data, import_data (Some (decoded data)) false s = no_effect s)
  /\ (forall e clicked,
        state (import_data (Some (raised e)) clicked s) = s).
Proof.
  repeat split.
Qed.

(** C10: a successful add, besides appending the new record, stores the age
    of the event just added as the session's [current_age]: it is the
    default age offered for the next event, and the age (and age range) of
    any reflection event saved afterwards. *)
Theorem add_event_sets_current_age
    (show_advanced : bool) (now : string) (f : form_values)
    (s : session_state) :
  Py.truthy (event_title f) = true ->
  Py.truthy (event_description f) = true ->
  let s' := state (add_event show_advanced true now f s) in
  life_events s' = (life_events s ++ [new_event show_advanced now f])%list
  /\ age (new_event show_advanced now f) = event_age f
  /\ current_age s' = event_age f
  /\ default_event_age s' = event_age f
  /\ forall (now' prompt text : string),
       Py.truthy text = true ->
       let s'' := state (save_reflection true now' prompt text s') in
       exists r,
         life_events s'' = (life_events s' ++ [r])%list
         /\ age r = event_age f
         /\ range r = age_range (event_age f)
         /\ current_age s'' = event_age f.
Proof.
  intros Ht Hd. rewrite (add_event_accepted _ _ _ _ Ht Hd).
  cbn [state life_events current_age default_event_age].
  repeat match goal with |- _ /\ _ => split end; try reflexivity.
  intros now' prompt text Htext.
  unfold save_reflection. rewrite Htext.
  cbn [andb state life_events current_age].
  eexists. split; [ reflexivity | ].
  repeat split.
Qed.

(** Adding an event of age 42 to a fresh session, whose stored age is 25. *)
Lemma add_event_sets_current_age_witness :
  current_age (state (add_event false true "t0" (sample_form 42 "Moved" 5)
                                initial_session)) = 42.
Proof.
  exact (proj1 (proj2 (proj2
           (add_event_sets_current_age false "t0" (sample_form 42 "Moved" 5)
              initial_session eq_refl eq_refl)))).
Defined.

(** ** The stable sort *)

Section SortFacts.

Context {A : Type} (leb : A -> A -> bool).

Let le (a b : A) : Prop := leb a b = true.

Lemma insert_perm (x : A) (l : list A) :
  Permutation (x :: l) (insert leb x l).
Proof.
  induction l as [ | y l IH ]; cbn [insert].
  - apply Permutation_refl.
  - destruct (leb x y).
    + apply Permutation_refl.
    + apply perm_trans with (y :: x :: l).
      * apply perm_swap.
      * apply perm_skip, IH.
Qed.

Lemma sort_perm (l : list A) : Permutation l (sort leb l).
Proof.
  induction l as [ | x l IH ]; cbn [sort fold_right].
  - apply perm_nil.
  - apply perm_trans with (x :: sort leb l).
    + apply perm_skip, IH.
    + apply insert_perm.
Qed.

Lemma sort_length (l : list A) : length (sort leb l) = length l.
Proof.
  symmetry. apply Permutation_length, sort_perm.
Qed.

Lemma sort_in (x : A) (l : list A) : In x (sort leb l) <-> In x l.
Proof.
  split; apply Permutation_in;
    [ apply Permutation_sym | ]; apply sort_perm.
Qed.

Hypothesis leb_total : forall a b, leb a b = true \/ leb b a = true.
Hypothesis leb_trans :
  forall a b c, leb a b = true -> leb b c = true -> leb a c = true.

Lemma insert_sorted (x : A) (l : list A) :
  StronglySorted le l -> StronglySorted le (insert leb x l).
Proof.
  induction 1 as [ | y l Hl IH Hy ]; cbn [insert].
  - constructor; constructor.
  - destruct (leb x y) eqn:Hxy.
    + constructor.
      * constructor; assumption.
      * constructor; [ exact Hxy | ].
        eapply Forall_impl; [ | exact Hy ].
        intros z Hz. exact (leb_trans _ _ _ Hxy Hz).
    + constructor; [ exact IH | ].
      apply (Permutation_Forall (insert_perm x l)).
      constructor; [ | exact Hy ].
      destruct (leb_total x y) as [H | H]; [ congruence | exact H ].
Qed.

Lemma sort_sorted (l : list A) : StronglySorted le (sort leb l).
Proof.
  induction l as [ | x l IH ]; cbn [sort fold_right].
  - constructor.
  - apply insert_sorted, IH.
Qed.

(** The head of a sorted list is below every element of the list. *)
Lemma sorted_head_least (x : A) (l : list A) :
  StronglySorted le (x :: l) -> forall y, In y (x :: l) -> leb x y = true.
Proof.
  intros Hs y [<- | Hy].
  - destruct (leb_total x x); assumption.
  - apply StronglySorted_inv in Hs. destruct Hs as [_ Hall].
    rewrite Forall_forall in Hall. apply Hall, Hy.
Qed.

(** Every element among the first [n] of a sorted list is below every
    element after them. *)
Lemma sorted_firstn_skipn (n : nat) (l : list A) :
  StronglySorted le l ->
  forall x y, In x (firstn n l) -> In y (skipn n l) -> leb x y = true.
Proof.
  intros Hs. revert n.
  induction Hs as [ | z l Hl IH Hz ]; intros n x y Hx Hy.
  - destruct n; contradiction.
  - destruct n as [ | n ]; [ contradiction | ].
    cbn [firstn skipn] in Hx, Hy.
    destruct Hx as [<- | Hx].
    + rewrite Forall_forall in Hz. apply Hz.
      rewrite <- (firstn_skipn n l). apply in_or_app. right. exact Hy.
    + exact (IH n x y Hx Hy).
Qed.

Hypothesis leb_antisym :
  forall a b, leb a b = true -> leb b a = true -> a = b.

(** A sorted list is determined by its elements. *)
Lemma sorted_perm_eq (l l' : list A) :
  StronglySorted le l -> StronglySorted le l' -> Permutation l l' -> l = l'.
Proof.
  intros Hl. revert l'.
  induction l as [ | x l IH ]; intros l' Hl' Hp.
  - apply Permutation_nil in Hp. congruence.
  - destruct l' as [ | y l' ].
    + apply Permutation_sym, Permutation_nil in Hp. discriminate.
    + assert (x = y) as <-.
      { apply leb_antisym.
        - apply (sorted_head_least x l Hl).
          apply (Permutation_in _ (Permutation_sym Hp)). left. reflexivity.
        - apply (sorted_head_least y l' Hl').
          apply (Permutation_in _ Hp). left. reflexivity. }
      f_equal. apply IH.
      * apply StronglySorted_inv in Hl. tauto.
      * apply StronglySorted_inv in Hl'. tauto.
      * exact (Permutation_cons_inv Hp).
Qed.

(** Sorting forgets the order of its input. *)
Lemma sort_perm_eq (l l' : list A) :
  Permutation l l' -> sort leb l = sort leb l'.
Proof.
  intros Hp.
  apply sorted_perm_eq; try apply sort_sorted.
  apply perm_trans with l; [ apply Permutation_sym, sort_perm | ].
  apply perm_trans with l'; [ exact Hp | apply sort_perm ].
Qed.

End SortFacts.

(** ** The order of strings *)

Lemma string_leb_trans (a b c : string) :
  String.leb a b = true -> String.leb b c = true -> String.leb a c = true.
Proof.
  unfold String.leb.
  change String.compare with String_as_OT.compare.
  destruct (String_as_OT.compare_spec a b) as [Hab | Hab | Hab];
    destruct (String_as_OT.compare_spec b c) as [Hbc | Hbc | Hbc];
    destruct (String_as_OT.compare_spec a c) as [Hac | Hac | Hac];
    try reflexivity; try discriminate; intros _ _; exfalso;
    unfold String_as_OT.eq in *; subst;
    apply (StrictOrder_Irreflexive (R := String_as_OT.lt) c);
    repeat (assumption
            || (eapply (StrictOrder_Transitive (R := String_as_OT.lt));
                [ eassumption | ])).
Qed.

(** ** Distinct values and their frequencies *)

Lemma filter_perm {A : Type} (p : A -> bool) (l l' : list A) :
  Permutation l l' -> Permutation (filter p l) (filter p l').
Proof.
  induction 1 as [ | x l l' _ IH | x y l | l l' l'' _ IH1 _ IH2 ];
    cbn [filter].
  - apply perm_nil.
  - destruct (p x); [ apply perm_skip | ]; exact IH.
  - destruct (p x), (p y); try apply Permutation_refl. apply perm_swap.
  - exact (perm_trans IH1 IH2).
Qed.

Lemma unique_in (x : string) (l : list string) :
  In x (Pd.unique l) <-> In x l.
Proof.
  induction l as [ | y l IH ]; cbn [Pd.unique]; [ tauto | ].
  cbn [In]. rewrite filter_In, IH, negb_true_iff, String.eqb_neq.
  destruct (string_dec y x) as [-> | Hne]; [ tauto | ].
  split.
  - intros [H | [H _]]; [ left | right ]; assumption.
  - intros [H | H]; [ left; assumption | right; split; congruence ].
Qed.

Lemma unique_nodup (l : list string) : NoDup (Pd.unique l).
Proof.
  induction l as [ | y l IH ]; cbn [Pd.unique]; constructor.
  - rewrite filter_In, negb_true_iff, String.eqb_neq. tauto.
  - apply NoDup_filter, IH.
Qed.

Lemma unique_perm (l l' : list string) :
  Permutation l l' -> Permutation (Pd.unique l) (Pd.unique l').
Proof.
  intros Hp. apply NoDup_Permutation; try apply unique_nodup.
  intros x. rewrite !unique_in.
  split; apply Permutation_in; [ | apply Permutation_sym ]; exact Hp.
Qed.

Lemma occurrences_perm (k : string) (l l' : list string) :
  Permutation l l' -> Pd.occurrences k l = Pd.occurrences k l'.
Proof.
  intros Hp. unfold Pd.occurrences.
  apply (proj1 (Permutation_count_occ string_dec l l') Hp).
Qed.

Lemma list_max_perm (l l' : list nat) :
  Permutation l l' -> list_max l = list_max l'.
Proof.
  intros Hp. apply Nat.le_antisymm; apply list_max_le.
  - apply (Permutation_Forall (Permutation_sym Hp)).
    apply list_max_le. apply Nat.le_refl.
  - apply (Permutation_Forall Hp).
    apply list_max_le. apply Nat.le_refl.
Qed.

Lemma list_max_in (l : list nat) : l <> [] -> In (list_max l) l.
Proof.
  induction l as [ | x l IH ]; [ congruence | intros _ ].
  destruct l as [ | y l ].
  - left. cbn. lia.
  - change (list_max (x :: y :: l)) with (Nat.max x (list_max (y :: l))).
    destruct (Nat.max_spec x (list_max (y :: l))) as [[_ ->] | [_ ->]].
    + right. apply IH. discriminate.
    + left. reflexivity.
Qed.

Lemma max_occurrences_perm (l l' : list string) :
  Permutation l l' -> Pd.max_occurrences l = Pd.max_occurrences l'.
Proof.
  intros Hp. unfold Pd.max_occurrences.
  rewrite (map_ext _ (fun k => Pd.occurrences k l')
             (fun k => occurrences_perm k l l' Hp)).
  apply list_max_perm, Permutation_map, Hp.
Qed.

Lemma max_occurrences_ge (k : string) (l : list string) :
  (Pd.occurrences k l <= Pd.max_occurrences l)%nat.
Proof.
  destruct (in_dec string_dec k l) as [Hin | Hout].
  - unfold Pd.max_occurrences.
    assert (H : Forall (fun n => (n <= list_max (map (fun k => Pd.occurrences k l) l))%nat)
                       (map (fun k => Pd.occurrences k l) l))
      by (apply list_max_le, Nat.le_refl).
    rewrite Forall_forall in H. apply H.
    apply in_map_iff. exists k. split; [ reflexivity | exact Hin ].
  - unfold Pd.occurrences at 1.
    rewrite (proj1 (count_occ_not_In string_dec l k) Hout). lia.
Qed.

Lemma max_occurrences_attained (l : list string) :
  l <> [] ->
  exists k, In k l /\ Pd.occurrences k l = Pd.max_occurrences l.
Proof.
  intros Hne. unfold Pd.max_occurrences.
  assert (Hin : In (list_max (map (fun k => Pd.occurrences k l) l))
                   (map (fun k => Pd.occurrences k l) l)).
  { apply list_max_in. destruct l; [ congruence | discriminate ]. }
  apply in_map_iff in Hin. destruct Hin as [k [Hk Hin]].
  exists k. split; [ exact Hin | exact Hk ].
Qed.

(** ** The mode *)

Lemma mode_in (k : string) (l : list string) :
  In k (Pd.mode l) <->
  In k l /\ Pd.occurrences k l = Pd.max_occurrences l.
Proof.
  unfold Pd.mode.
  rewrite sort_in, filter_In, unique_in, Nat.eqb_eq. tauto.
Qed.

Lemma mode_perm (l l' : list string) :
  Permutation l l' -> Pd.mode l = Pd.mode l'.
Proof.
  intros Hp. unfold Pd.mode.
  rewrite <- (max_occurrences_perm l l' Hp).
  rewrite (filter_ext _ (fun k => Nat.eqb (Pd.occurrences k l')
                                         (Pd.max_occurrences l))
             (fun k => f_equal (fun n => Nat.eqb n (Pd.max_occurrences l))
                               (occurrences_perm k l l' Hp))).
  apply sort_perm_eq.
  - exact String.leb_total.
  - exact string_leb_trans.
  - exact String.leb_antisym.
  - apply filter_perm, unique_perm, Hp.
Qed.

(** The first mode of a non-empty column is the least, in the order of
    strings, of the values that occur most often. *)
Lemma first_mode_least (l : list string) :
  l <> [] ->
  exists m,
    Pd.iloc0 (Pd.mode l) = Some m
    /\ In m l
    /\ Pd.occurrences m l = Pd.max_occurrences l
    /\ forall k, Pd.occurrences k l = Pd.max_occurrences l ->
                 String.leb m k = true.
Proof.
  intros Hne.
  destruct (max_occurrences_attained l Hne) as [k0 [Hk0 Hmax0]].
  assert (Hin0 : In k0 (Pd.mode l)) by (apply mode_in; tauto).
  assert (Hs : StronglySorted (fun a b => String.leb a b = true) (Pd.mode l))
    by (apply sort_sorted; [ exact String.leb_total | exact string_leb_trans ]).
  destruct (Pd.mode l) as [ | m rest ] eqn:Hmode; [ contradiction | ].
  exists m. split; [ reflexivity | ].
  assert (Hm : In m (Pd.mode l)) by (rewrite Hmode; left; reflexivity).
  apply mode_in in Hm. destruct Hm as [Hml Hmmax].
  repeat split; try assumption.
  intros k Hk.
  apply (sorted_head_least String.leb String.leb_total m rest Hs).
  rewrite <- Hmode. apply mode_in. split; [ | exact Hk ].
  destruct (in_dec string_dec k l) as [Hin | Hout]; [ exact Hin | exfalso ].
  unfold Pd.occurrences in Hk at 1.
  rewrite (proj1 (count_occ_not_In string_dec l k) Hout) in Hk.
  assert (H1 : (Pd.occurrences k0 l > 0)%nat)
    by (apply count_occ_In; exact Hk0).
  lia.
Qed.

(** C4, as stated, fails: [mode()] returns the tied values sorted, so the
    first of them is the least in the order of strings, not the first of the
    enumeration.  With one "Education & Learning" and one "Relationships &
    Family" event the top category is the latter (its emoji has the smaller
    code point) though the former comes first in [event_categories]; with
    one "Personal Growth" and one "Career" event the primary area is
    "Career" though "Personal Growth" comes first in [life_areas]. *)
Lemma mode_tie_ignores_enumeration_order :
  most_common_category sample_tie = Some "❤️ Relationships & Family"
  /\ first_tied_in_enumeration event_categories (map category sample_tie)
     = Some "🎓 Education & Learning"
  /\ top_area sample_tie = Some "Career"
  /\ first_tied_in_enumeration life_areas (map life_area sample_tie)
     = Some "Personal Growth".
Proof.
  repeat split.
Qed.

(** C4 (amended): for every non-empty collection, the top category (resp.
    the dominant life area) is a value of highest frequency, and when two or
    more values are tied for the highest frequency it is the least of them
    in the order of strings (by code point), whatever their position in the
    fixed category (resp. life-area) list. *)
Theorem mode_tie_broken_by_string_order (df : Pd.DataFrame) :
  df <> [] ->
  (exists c,
     most_common_category df = Some c
     /\ In c (map category df)
     /\ Pd.occurrences c (map category df)
        = Pd.max_occurrences (map category df)
     /\ forall c',
          Pd.occurrences c' (map category df)
            = Pd.max_occurrences (map category df) ->
          String.leb c c' = true)
  /\ (exists a,
        top_area df = Some a
        /\ In a (map life_area df)
        /\ Pd.occurrences a (map life_area df)
           = Pd.max_occurrences (map life_area df)
        /\ forall a',
             Pd.occurrences a' (map life_area df)
               = Pd.max_occurrences (map life_area df) ->
             String.leb a a' = true).
Proof.
  intros Hne.
  split; apply first_mode_least;
    destruct df; [ congruence | discriminate | congruence | discriminate ].
Qed.

(** The primary area of the two tied sample events. *)
Lemma mode_tie_broken_by_string_order_witness :
  exists a,
    top_area sample_tie = Some a
    /\ In a (map life_area sample_tie)
    /\ Pd.occurrences a (map life_area sample_tie)
       = Pd.max_occurrences (map life_area sample_tie)
    /\ forall a',
         Pd.occurrences a' (map life_area sample_tie)
           = Pd.max_occurrences (map life_area sample_tie) ->
         String.leb a a' = true.
Proof.
  refine (proj2 (mode_tie_broken_by_string_order sample_tie _)).
  discriminate.
Defined.

(** ** Selections by age *)

Lemma nlargest_largest (n : nat) (df : Pd.DataFrame) :
  (n <= length df)%nat -> largest_by_age n (Pd.nlargest n df) df.
Proof.
  intros Hn. unfold largest_by_age, Pd.nlargest.
  set (leb := fun a b : event => age b <=? age a).
  split.
  - rewrite length_firstn, sort_length. lia.
  - exists (skipn n (sort leb df)). split.
    + rewrite firstn_skipn. apply sort_perm.
    + intros x y Hx Hy.
      assert (H : leb x y = true).
      { apply (sorted_firstn_skipn leb) with (n := n) (l := sort leb df);
          try assumption.
        apply sort_sorted; unfold leb.
        - intros a b. rewrite !Z.leb_le. lia.
        - intros a b c. rewrite !Z.leb_le. lia. }
      unfold leb in H. apply Z.leb_le in H. exact H.
Qed.

Lemma nsmallest_smallest (n : nat) (df : Pd.DataFrame) :
  (n <= length df)%nat -> smallest_by_age n (Pd.nsmallest n df) df.
Proof.
  intros Hn. unfold smallest_by_age, Pd.nsmallest.
  set (leb := fun a b : event => age a <=? age b).
  split.
  - rewrite length_firstn, sort_length. lia.
  - exists (skipn n (sort leb df)). split.
    + rewrite firstn_skipn. apply sort_perm.
    + intros x y Hx Hy.
      assert (H : leb x y = true).
      { apply (sorted_firstn_skipn leb) with (n := n) (l := sort leb df);
          try assumption.
        apply sort_sorted; unfold leb.
        - intros a b. rewrite !Z.leb_le. lia.
        - intros a b c. rewrite !Z.leb_le. lia. }
      unfold leb in H. apply Z.leb_le in H. exact H.
Qed.

(** ** Means and their comparison *)

Lemma mean_of_nonempty (xs : list Z) :
  xs <> [] ->
  exists m, Pd.mean xs = Some m
            /\ (m == Pd.sum xs # Pos.of_nat (length xs))%Q.
Proof.
  intros Hne. destruct xs as [ | x xs ]; [ congruence | ].
  eexists. split; [ reflexivity | apply Qred_correct ].
Qed.

Lemma Qltb_lt (a b : Q) : Pd.Qltb a b = true <-> (a < b)%Q.
Proof.
  unfold Pd.Qltb. rewrite Qlt_alt.
  destruct (a ?= b)%Q; split; congruence.
Qed.

Lemma Qltb_ge (a b : Q) : Pd.Qltb a b = false <-> (b <= a)%Q.
Proof.
  rewrite <- not_true_iff_false, Qltb_lt. split.
  - apply Qnot_lt_le.
  - apply Qle_not_lt.
Qed.


(** ** Coaching recommendations *)

(** Only the first rule emits the mindset recommendation. *)
Lemma mindset_only_from_rule_sentiment (df : Pd.DataFrame) :
  In mindset_recommendation (recommendations df) <->
  rule_sentiment df = [mindset_recommendation].
Proof.
  unfold recommendations. rewrite !in_app_iff. split.
  - intros [H | [H | [H | H]]].
    + unfold rule_sentiment in *.
      destruct (Pd.lt (positive_ratio df) (Some (4 # 10)));
        [ reflexivity | contradiction ].
    + unfold rule_impact in H.
      destruct (Pd.Qltb _ _); [ | contradiction ].
      destruct H as [H | []]. discriminate H.
    + unfold rule_life_area in H.
      destruct (Pd.iloc0 _) as [[focus n] | ]; [ | contradiction ].
      destruct (Pd.Qltb _ _); [ | contradiction ].
      destruct H as [H | []]. discriminate H.
    + unfold rule_recent in H.
      destruct (5 <=? Pd.len df); [ | contradiction ].
      destruct (3 <=? _); [ | contradiction ].
      destruct H as [H | []]. discriminate H.
  - intros ->. left. left. reflexivity.
Qed.

(** C8: for every non-empty collection, the recommendations contain the
    Mindset/gratitude recommendation if and only if the fraction of events
    whose sentiment is Positive is strictly less than 0.4; with 10 events of
    which 3 are Positive it is emitted, with 10 events of which 5 are
    Positive it is not. *)
Theorem mindset_recommendation_iff_positive_ratio_below_04 :
  (forall df : Pd.DataFrame,
     df <> [] ->
     (In mindset_recommendation (recommendations df) <->
      (Pd.count_if is_positive df # Pos.of_nat (length df) < 4 # 10)%Q))
  /\ (Pd.len (sample_ten 3) = 10
      /\ Pd.count_if is_positive (sample_ten 3) = 3
      /\ In mindset_recommendation (recommendations (sample_ten 3)))
  /\ (Pd.len (sample_ten 5) = 10
      /\ Pd.count_if is_positive (sample_ten 5) = 5
      /\ ~ In mindset_recommendation (recommendations (sample_ten 5))).
Proof.
  split; [ | split ].
  - intros df Hne.
    rewrite mindset_only_from_rule_sentiment.
    unfold rule_sentiment, positive_ratio, Pd.fraction.
    destruct df as [ | e df ]; [ congruence | ].
    cbn [Pd.lt]. set (q := (Pd.count_if is_positive (e :: df)
                              # Pos.of_nat (length (e :: df)))%Q).
    destruct (Pd.Qltb (Qred q) (4 # 10)) eqn:Hq.
    + apply Qltb_lt in Hq. rewrite (Qred_correct q) in Hq. tauto.
    + apply Qltb_ge in Hq. rewrite (Qred_correct q) in Hq.
      split; [ discriminate | ].
      intros Hlt. exfalso. exact (Qle_not_lt _ _ Hq Hlt).
  - repeat split. apply mindset_only_from_rule_sentiment. reflexivity.
  - repeat split. rewrite mindset_only_from_rule_sentiment. discriminate.
Qed.

(** ** Order independence of the reductions *)

Lemma sum_perm (xs ys : list Z) :
  Permutation xs ys -> Pd.sum xs = Pd.sum ys.
Proof.
  unfold Pd.sum.
  induction 1 as [ | x l l' _ IH | x y l | l l' l'' _ IH1 _ IH2 ];
    cbn [fold_right]; lia.
Qed.

Lemma mean_perm (xs ys : list Z) :
  Permutation xs ys -> Pd.mean xs = Pd.mean ys.
Proof.
  intros Hp.
  pose proof (sum_perm xs ys Hp) as Hs.
  pose proof (Permutation_length Hp) as Hl.
  destruct xs as [ | x xs ], ys as [ | y ys ]; try discriminate Hl.
  - reflexivity.
  - unfold Pd.mean. rewrite Hs, Hl. reflexivity.
Qed.

(** [fold_right Z.max x rest] is an element of [x :: rest] above all of
    them; likewise [Z.min], below. *)
Lemma fold_max_spec (x : Z) (rest : list Z) :
  In (fold_right Z.max x rest) (x :: rest)
  /\ forall y, In y (x :: rest) -> y <= fold_right Z.max x rest.
Proof.
  induction rest as [ | z rest [IHin IHle] ]; cbn [fold_right].
  - split; [ left; reflexivity | ].
    intros y [<- | []]. lia.
  - split.
    + destruct (Z.max_spec z (fold_right Z.max x rest)) as [[_ ->] | [_ ->]].
      * destruct IHin as [H | H]; [ left; exact H | right; right; exact H ].
      * right. left. reflexivity.
    + intros y [<- | [<- | Hy]].
      * specialize (IHle x (or_introl eq_refl)). lia.
      * lia.
      * specialize (IHle y (or_intror Hy)). lia.
Qed.

Lemma fold_min_spec (x : Z) (rest : list Z) :
  In (fold_right Z.min x rest) (x :: rest)
  /\ forall y, In y (x :: rest) -> fold_right Z.min x rest <= y.
Proof.
  induction rest as [ | z rest [IHin IHle] ]; cbn [fold_right].
  - split; [ left; reflexivity | ].
    intros y [<- | []]. lia.
  - split.
    + destruct (Z.min_spec z (fold_right Z.min x rest)) as [[_ ->] | [_ ->]].
      * right. left. reflexivity.
      * destruct IHin as [H | H]; [ left; exact H | right; right; exact H ].
    + intros y [<- | [<- | Hy]].
      * specialize (IHle x (or_introl eq_refl)). lia.
      * lia.
      * specialize (IHle y (or_intror Hy)). lia.
Qed.

Lemma max_perm (xs ys : list Z) :
  Permutation xs ys -> Pd.max xs = Pd.max ys.
Proof.
  intros Hp.
  destruct xs as [ | x xs ], ys as [ | y ys ];
    try (apply Permutation_length in Hp; discriminate Hp);
    [ reflexivity | ].
  unfold Pd.max. f_equal.
  destruct (fold_max_spec x xs) as [Hin Hle].
  destruct (fold_max_spec y ys) as [Hin' Hle'].
  apply Z.le_antisymm.
  - apply Hle'. exact (Permutation_in _ Hp Hin).
  - apply Hle. exact (Permutation_in _ (Permutation_sym Hp) Hin').
Qed.

Lemma min_perm (xs ys : list Z) :
  Permutation xs ys -> Pd.min xs = Pd.min ys.
Proof.
  intros Hp.
  destruct xs as [ | x xs ], ys as [ | y ys ];
    try (apply Permutation_length in Hp; discriminate Hp);
    [ reflexivity | ].
  unfold Pd.min. f_equal.
  destruct (fold_min_spec x xs) as [Hin Hle].
  destruct (fold_min_spec y ys) as [Hin' Hle'].
  apply Z.le_antisymm.
  - apply Hle. exact (Permutation_in _ (Permutation_sym Hp) Hin').
  - apply Hle'. exact (Permutation_in _ Hp Hin).
Qed.

Lemma count_if_perm {A : Type} (p : A -> bool) (l l' : list A) :
  Permutation l l' -> Pd.count_if p l = Pd.count_if p l'.
Proof.
  intros Hp. unfold Pd.count_if, Pd.len.
  f_equal. apply Permutation_length, filter_perm, Hp.
Qed.

(** ** Grouping by pairs of keys *)

Lemma pair_eqb_eq (a b : string * string) :
  Pd.pair_eqb a b = true <-> a = b.
Proof.
  destruct a as [a1 a2], b as [b1 b2]. unfold Pd.pair_eqb. cbn [fst snd].
  rewrite andb_true_iff, !String.eqb_eq.
  split; [ intros [-> ->]; reflexivity | intros H; inversion H; tauto ].
Qed.

Lemma pair_leb_total (a b : string * string) :
  Pd.pair_leb a b = true \/ Pd.pair_leb b a = true.
Proof.
  destruct a as [a1 a2], b as [b1 b2]. unfold Pd.pair_leb. cbn [fst snd].
  rewrite (String.eqb_sym b1 a1).
  destruct (String.eqb a1 b1); apply String.leb_total.
Qed.

Lemma pair_leb_antisym (a b : string * string) :
  Pd.pair_leb a b = true -> Pd.pair_leb b a = true -> a = b.
Proof.
  destruct a as [a1 a2], b as [b1 b2]. unfold Pd.pair_leb. cbn [fst snd].
  rewrite (String.eqb_sym b1 a1).
  destruct (String.eqb_spec a1 b1) as [-> | Hne]; intros H1 H2.
  - f_equal. apply String.leb_antisym; assumption.
  - exfalso. apply Hne. apply String.leb_antisym; assumption.
Qed.

Lemma pair_leb_trans (a b c : string * string) :
  Pd.pair_leb a b = true -> Pd.pair_leb b c = true ->
  Pd.pair_leb a c = true.
Proof.
  destruct a as [a1 a2], b as [b1 b2], c as [c1 c2].
  unfold Pd.pair_leb. cbn [fst snd].
  destruct (String.eqb_spec a1 b1) as [-> | Hab];
    destruct (String.eqb_spec b1 c1) as [-> | Hbc]; intros H1 H2.
  - exact (string_leb_trans _ _ _ H1 H2).
  - exact H2.
  - rewrite (proj2 (String.eqb_neq _ _) Hab). exact H1.
  - destruct (String.eqb_spec a1 c1) as [-> | Hac].
    + exfalso. apply Hab. apply String.leb_antisym; assumption.
    + exact (string_leb_trans _ _ _ H1 H2).
Qed.

Lemma unique_pairs_in (x : string * string) (l : list (string * string)) :
  In x (Pd.unique_pairs l) <-> In x l.
Proof.
  induction l as [ | y l IH ]; cbn [Pd.unique_pairs]; [ tauto | ].
  cbn [In]. rewrite filter_In, IH, negb_true_iff.
  destruct (Pd.pair_eqb x y) eqn:E.
  - apply pair_eqb_eq in E. subst y.
    split; [ intros [H | [_ H]]; [ left; exact H | discriminate H ]
           | intros _; left; reflexivity ].
  - split.
    + intros [H | [H _]]; [ left | right ]; assumption.
    + intros [H | H]; [ left; exact H | right; split; [ exact H | reflexivity ] ].
Qed.

Lemma unique_pairs_nodup (l : list (string * string)) :
  NoDup (Pd.unique_pairs l).
Proof.
  induction l as [ | y l IH ]; cbn [Pd.unique_pairs]; constructor.
  - rewrite filter_In, negb_true_iff.
    intros [_ H]. rewrite (proj2 (pair_eqb_eq y y) eq_refl) in H.
    discriminate H.
  - apply NoDup_filter, IH.
Qed.

Lemma groupby_size_perm (l l' : list (string * string)) :
  Permutation l l' -> Pd.groupby_size l = Pd.groupby_size l'.
Proof.
  intros Hp. unfold Pd.groupby_size.
  rewrite (map_ext _ (fun k => (k, Pd.count_if (Pd.pair_eqb k) l'))
             (fun k => f_equal (pair k)
                         (count_if_perm (Pd.pair_eqb k) l l' Hp))).
  f_equal.
  apply sort_perm_eq.
  - exact pair_leb_total.
  - exact pair_leb_trans.
  - exact pair_leb_antisym.
  - apply NoDup_Permutation; try apply unique_pairs_nodup.
    intros x. rewrite !unique_pairs_in.
    split; apply Permutation_in; [ | apply Permutation_sym ]; exact Hp.
Qed.

(** ** Sums of reals over the rows *)

Section RealSums.

#[local] Open Scope R_scope.

Context {A : Type}.

Lemma rsum_ext (f g : A -> R) (l : list A) :
  (forall a, In a l -> f a = g a) -> Pd.rsum f l = Pd.rsum g l.
Proof.
  unfold Pd.rsum.
  induction l as [ | x l IH ]; intros H; cbn [fold_right]; [ reflexivity | ].
  rewrite (H x (or_introl eq_refl)), IH; [ reflexivity | ].
  intros a Ha. apply H. right. exact Ha.
Qed.

Lemma rsum_map {B : Type} (f : B -> R) (g : A -> B) (l : list A) :
  Pd.rsum f (map g l) = Pd.rsum (fun a => f (g a)) l.
Proof.
  unfold Pd.rsum.
  induction l as [ | x l IH ]; cbn [map fold_right]; [ reflexivity | ].
  rewrite IH. reflexivity.
Qed.

Lemma rsum_nonneg (f : A -> R) (l : list A) :
  (forall a, 0 <= f a) -> 0 <= Pd.rsum f l.
Proof.
  intros Hf. unfold Pd.rsum.
  induction l as [ | x l IH ]; cbn [fold_right]; [ lra | ].
  specialize (Hf x). lra.
Qed.

Lemma rsum_zero (f : A -> R) (l : list A) :
  (forall a, 0 <= f a) ->
  Pd.rsum f l = 0 -> forall a, In a l -> f a = 0.
Proof.
  intros Hf.
  induction l as [ | x l IH ]; intros Hs a Ha; [ contradiction | ].
  change (f x + Pd.rsum f l = 0) in Hs.
  pose proof (Hf x) as Hx.
  pose proof (rsum_nonneg f l Hf) as Hl.
  destruct Ha as [<- | Ha]; [ lra | ].
  apply IH; [ lra | exact Ha ].
Qed.

Lemma rsum_all_zero (f : A -> R) (l : list A) :
  (forall a, In a l -> f a = 0) -> Pd.rsum f l = 0.
Proof.
  intros H. rewrite (rsum_ext f (fun _ => 0) l H).
  unfold Pd.rsum. induction l as [ | x l IH ]; cbn [fold_right].
  - reflexivity.
  - rewrite IH; [ lra | ].
    intros a Ha. apply H. right. exact Ha.
Qed.

End RealSums.

(** ** Counts by value *)

(** Looking a key up in a list of counts whose keys are distinct. *)
Lemma get_in (key : string) (c : nat) (counts : list (string * nat)) :
  NoDup (map fst counts) -> In (key, c) counts ->
  Pd.get key counts = Z.of_nat c.
Proof.
  induction counts as [ | [k n] counts IH ]; intros Hnd Hin;
    [ contradiction | ].
  cbn [Pd.get]. cbn [map fst] in Hnd. inversion Hnd as [ | ? ? Hk Hnd' ]; subst.
  destruct Hin as [Heq | Hin].
  - inversion Heq; subst. rewrite String.eqb_refl. reflexivity.
  - destruct (String.eqb_spec k key) as [-> | Hne].
    + exfalso. apply Hk. apply in_map_iff. exists (key, c). tauto.
    + apply IH; assumption.
Qed.

Lemma get_not_in (key : string) (counts : list (string * nat)) :
  ~ In key (map fst counts) -> Pd.get key counts = 0%Z.
Proof.
  induction counts as [ | [k n] counts IH ]; intros Hout; [ reflexivity | ].
  cbn [Pd.get]. cbn [map fst In] in Hout.
  destruct (String.eqb_spec k key) as [-> | Hne]; [ tauto | ].
  apply IH. tauto.
Qed.

(** [value_counts] gives every value its number of occurrences, whatever
    the order in which it lists the values. *)
Lemma value_counts_get (key : string) (l : list string) :
  Pd.get key (Pd.value_counts l) = Z.of_nat (Pd.occurrences key l).
Proof.
  unfold Pd.value_counts.
  set (leb := fun a b : string * nat => Nat.leb (snd b) (snd a)).
  set (kc := map (fun k => (k, Pd.occurrences k l)) (Pd.unique l)).
  assert (Hkeys : Permutation (Pd.unique l) (map fst (sort leb kc))).
  { apply perm_trans with (map fst kc).
    - unfold kc. rewrite map_map. cbn [fst]. rewrite map_id.
      apply Permutation_refl.
    - apply Permutation_map, sort_perm. }
  destruct (in_dec string_dec key l) as [Hin | Hout].
  - apply get_in.
    + apply (Permutation_NoDup Hkeys), unique_nodup.
    + apply sort_in. unfold kc. apply in_map_iff.
      exists key. split; [ reflexivity | apply unique_in, Hin ].
  - rewrite get_not_in.
    + unfold Pd.occurrences.
      rewrite (proj1 (count_occ_not_In string_dec l key) Hout). reflexivity.
    + intros H. apply Hout, unique_in.
      exact (Permutation_in _ (Permutation_sym Hkeys) H).
Qed.

(** The rows of [value_counts] are the same for every order of the column;
    only their order can change. *)
Lemma value_counts_perm (l l' : list string) :
  Permutation l l' -> Permutation (Pd.value_counts l) (Pd.value_counts l').
Proof.
  intros Hp. unfold Pd.value_counts.
  set (leb := fun a b : string * nat => Nat.leb (snd b) (snd a)).
  apply perm_trans
    with (map (fun k => (k, Pd.occurrences k l)) (Pd.unique l));
    [ apply Permutation_sym, sort_perm | ].
  apply perm_trans
    with (map (fun k => (k, Pd.occurrences k l')) (Pd.unique l'));
    [ | apply sort_perm ].
  rewrite (map_ext _ (fun k => (k, Pd.occurrences k l'))
             (fun k => f_equal (pair k) (occurrences_perm k l l' Hp))).
  apply Permutation_map, unique_perm, Hp.
Qed.




(** ** Zero variance *)

Section Variance.

#[local] Open Scope R_scope.

Lemma sum_constant (c : Z) (xs : list Z) :
  (forall x, In x xs -> x = c) -> Pd.sum xs = (Z.of_nat (length xs) * c)%Z.
Proof.
  unfold Pd.sum.
  induction xs as [ | x xs IH ]; intros H; [ reflexivity | ].
  cbn [fold_right length].
  rewrite IH by (intros y Hy; apply H; right; exact Hy).
  rewrite (H x (or_introl eq_refl)). lia.
Qed.

Lemma rmean_constant (c : Z) (xs : list Z) :
  xs <> [] -> (forall x, In x xs -> x = c) -> Pd.rmean xs = IZR c.
Proof.
  intros Hne H. unfold Pd.rmean.
  rewrite (sum_constant c xs H), mult_IZR, <- INR_IZR_INZ.
  field. apply not_0_INR. destruct xs; [ congruence | discriminate ].
Qed.

(** The sum of squared deviations of a column. *)
Lemma self_codeviation (xs : list Z) :
  Pd.codeviation xs xs
  = Pd.rsum (fun x => (IZR x - Pd.rmean xs) * (IZR x - Pd.rmean xs)) xs.
Proof.
  unfold Pd.codeviation.
  replace (combine xs xs) with (map (fun x : Z => (x, x)) xs).
  - rewrite rsum_map. reflexivity.
  - induction xs as [ | x xs IH ]; cbn [map combine]; [ reflexivity | ].
    rewrite IH. reflexivity.
Qed.

Lemma self_codeviation_nonneg (xs : list Z) : 0 <= Pd.codeviation xs xs.
Proof.
  rewrite self_codeviation. apply rsum_nonneg.
  intros x. apply Rle_0_sqr.
Qed.

Lemma self_codeviation_zero (xs : list Z) :
  Pd.codeviation xs xs = 0 <-> constant xs.
Proof.
  rewrite self_codeviation. split.
  - intros Hs x y Hx Hy.
    assert (Hdev : forall z, In z xs -> IZR z = Pd.rmean xs).
    { intros z Hz.
      pose proof (rsum_zero _ xs (fun a => Rle_0_sqr _) Hs z Hz) as H.
      apply Rsqr_0_uniq in H. lra. }
    apply eq_IZR. rewrite (Hdev x Hx), (Hdev y Hy). reflexivity.
  - intros Hc. apply rsum_all_zero. intros x Hx.
    rewrite (rmean_constant x xs).
    + ring.
    + intros ->. contradiction.
    + intros y Hy. exact (Hc y x Hy Hx).
Qed.

(** With at least two rows, the standard deviation of a column is zero
    exactly when the column is constant. *)
Lemma std_zero (xs : list Z) :
  (2 <= length xs)%nat -> (Pd.std xs = 0 <-> constant xs).
Proof.
  intros Hn.
  assert (Hk : 0 < INR (length xs) - 1).
  { apply le_INR in Hn. cbn [INR] in Hn. lra. }
  rewrite <- self_codeviation_zero. unfold Pd.std, Pd.cov. split.
  - intros Hs. apply sqrt_eq_0 in Hs.
    + unfold Rdiv in Hs. apply Rmult_integral in Hs.
      destruct Hs as [Hs | Hs]; [ exact Hs | ].
      exfalso. apply (Rinv_neq_0_compat (INR (length xs) - 1)); lra.
    + apply Rmult_le_pos; [ apply self_codeviation_nonneg | ].
      apply Rlt_le, Rinv_0_lt_compat, Hk.
  - intros ->. unfold Rdiv. rewrite Rmult_0_l. apply sqrt_0.
Qed.

(** The product of the standard deviations, by the sums of squared
    deviations. *)
Lemma std_product (xs ys : list Z) (k : R) :
  0 < k ->
  sqrt (Pd.codeviation xs xs / k) * sqrt (Pd.codeviation ys ys / k)
  = sqrt (Pd.codeviation xs xs * Pd.codeviation ys ys) / k.
Proof.
  intros Hk.
  pose proof (self_codeviation_nonneg xs) as Hx.
  pose proof (self_codeviation_nonneg ys) as Hy.
  rewrite <- sqrt_mult_alt.
  - replace (Pd.codeviation xs xs / k * (Pd.codeviation ys ys / k))
      with (Pd.codeviation xs xs * Pd.codeviation ys ys / (k * k))
      by (field; lra).
    rewrite sqrt_div_alt by (apply Rmult_lt_0_compat; exact Hk).
    rewrite (sqrt_square k) by lra. reflexivity.
  - apply Rmult_le_pos; [ exact Hx | ].
    apply Rlt_le, Rinv_0_lt_compat, Hk.
Qed.

End Variance.

(** ** The age-impact correlation *)

Section PearsonCorrelation.

#[local] Open Scope R_scope.

Lemma correlation_defined (df : Pd.DataFrame) (r : R) :
  correlation df = Some r ->
  (2 <= length df)%nat
  /\ Pd.std (map age df) * Pd.std (map impact df) <> 0
  /\ r = Pd.cov (map age df) (map impact df)
         / (Pd.std (map age df) * Pd.std (map impact df)).
Proof.
  unfold correlation, Pd.corr. rewrite length_map.
  destruct (Nat.ltb_spec (length df) 2) as [Hlt | Hge]; [ discriminate | ].
  destruct (Req_dec_T _ 0) as [Hz | Hnz]; [ discriminate | ].
  intros H. injection H as <-. tauto.
Qed.

Lemma correlation_undefined (df : Pd.DataFrame) :
  correlation df = None <->
  (length df < 2)%nat
  \/ Pd.std (map age df) * Pd.std (map impact df) = 0.
Proof.
  unfold correlation, Pd.corr. rewrite length_map.
  destruct (Nat.ltb_spec (length df) 2) as [Hlt | Hge].
  - split; [ intros _; left; exact Hlt | reflexivity ].
  - destruct (Req_dec_T _ 0) as [Hz | Hnz].
    + split; [ intros _; right; exact Hz | reflexivity ].
    + split; [ discriminate | ].
      intros [H | H]; [ lia | contradiction ].
Qed.

(** Where it is defined, the correlation computed from the covariance and
    the standard deviations with [n - 1] is the coefficient computed from
    the covariance and the variances with [n]. *)
Lemma correlation_pearson (df : Pd.DataFrame) (r : R) :
  correlation df = Some r -> r = pearson (map age df) (map impact df).
Proof.
  intros H. apply correlation_defined in H. destruct H as [Hn [Hnz ->]].
  assert (Hlen : 2 <= INR (length df)).
  { apply le_INR in Hn. cbn [INR] in Hn. lra. }
  unfold pearson, population_cov.
  unfold Pd.std, Pd.cov in *. rewrite !length_map in *.
  set (Sxy := Pd.codeviation (map age df) (map impact df)) in *.
  set (n := INR (length df)) in *.
  rewrite (std_product (map age df) (map impact df) (n - 1)) in Hnz by lra.
  rewrite (std_product (map age df) (map impact df) (n - 1)) by lra.
  rewrite (sqrt_mult_alt (Pd.codeviation (map age df) (map age df) / n)
             (Pd.codeviation (map impact df) (map impact df) / n)).
  - rewrite (std_product (map age df) (map impact df) n) by lra.
    set (P := sqrt (Pd.codeviation (map age df) (map age df)
                    * Pd.codeviation (map impact df) (map impact df))) in *.
    assert (HP : P <> 0).
    { intros HP. apply Hnz. rewrite HP. unfold Rdiv. apply Rmult_0_l. }
    field. repeat split; lra.
  - apply Rmult_le_pos; [ apply self_codeviation_nonneg | ].
    apply Rlt_le, Rinv_0_lt_compat. lra.
Qed.

Lemma sample_pairs_correlation : correlation sample_pairs = Some (1 / 2).
Proof.
  assert (Hxy : Pd.cov [10; 25; 40]%Z [3; 9; 6]%Z = 45 / 2).
  { unfold Pd.cov, Pd.codeviation, Pd.rmean, Pd.rsum, Pd.sum.
    cbn [combine fold_right fst snd length Z.add INR]. simpl. field. }
  assert (Hxx : Pd.std [10; 25; 40]%Z = 15).
  { assert (Hc : Pd.cov [10; 25; 40]%Z [10; 25; 40]%Z = 225).
    { unfold Pd.cov, Pd.codeviation, Pd.rmean, Pd.rsum, Pd.sum.
      cbn [combine fold_right fst snd length Z.add INR]. simpl. field. }
    unfold Pd.std. rewrite Hc. apply sqrt_lem_1; lra. }
  assert (Hyy : Pd.std [3; 9; 6]%Z = 3).
  { assert (Hc : Pd.cov [3; 9; 6]%Z [3; 9; 6]%Z = 9).
    { unfold Pd.cov, Pd.codeviation, Pd.rmean, Pd.rsum, Pd.sum.
      cbn [combine fold_right fst snd length Z.add INR]. simpl. field. }
    unfold Pd.std. rewrite Hc. apply sqrt_lem_1; lra. }
  unfold correlation, Pd.corr.
  change (map age sample_pairs) with [10; 25; 40]%Z.
  change (map impact sample_pairs) with [3; 9; 6]%Z.
  cbn [length Nat.ltb Nat.leb].
  rewrite Hxy, Hxx, Hyy.
  destruct (Req_dec_T (15 * 3) 0) as [Hz | Hnz]; [ lra | ].
  f_equal. field.
Qed.

Lemma sample_pairs_moments :
  Pd.rmean (map age sample_pairs) = 25
  /\ Pd.rmean (map impact sample_pairs) = 6
  /\ population_cov (map age sample_pairs) (map impact sample_pairs) = 15
  /\ population_cov (map age sample_pairs) (map age sample_pairs)
     * population_cov (map impact sample_pairs) (map impact sample_pairs)
     = 900.
Proof.
  change (map age sample_pairs) with [10; 25; 40]%Z.
  change (map impact sample_pairs) with [3; 9; 6]%Z.
  unfold population_cov, Pd.codeviation, Pd.rmean, Pd.rsum, Pd.sum.
  cbn [combine fold_right fst snd length Z.add INR]. simpl.
  repeat split; field.
Qed.

End PearsonCorrelation.


(** * Further properties of the event store *)

(** The rows of [enumerate(l)], counted from [k], are the positions of [l]
    with their elements. *)
Lemma in_combine_seq {A : Type} (l : list A) :
  forall (k i : nat) (x : A),
    In (i, x) (combine (seq k (length l)) l) <->
    (k <= i)%nat /\ nth_error l (i - k) = Some x.
Proof.
  induction l as [ | y l IH ]; intros k i x; cbn [length seq combine In].
  - split; [ contradiction | ].
    intros [_ H]. destruct (i - k)%nat; discriminate H.
  - rewrite IH. split.
    + intros [H | [Hk Hn]].
      * inversion H; subst. rewrite Nat.sub_diag. split; [ lia | reflexivity ].
      * split; [ lia | ].
        replace (i - k)%nat with (S (i - S k)) by lia. exact Hn.
    + intros [Hk Hn].
      destruct (Nat.eq_dec i k) as [-> | Hne].
      * rewrite Nat.sub_diag in Hn. cbn in Hn. left. congruence.
      * right. split; [ lia | ].
        replace (i - k)%nat with (S (i - S k)) in Hn by lia. exact Hn.
Qed.

Lemma in_enumerate {A : Type} (l : list A) (i : nat) (x : A) :
  In (i, x) (Py.enumerate l) <-> nth_error l i = Some x.
Proof.
  unfold Py.enumerate. rewrite in_combine_seq, Nat.sub_0_r.
  split; [ tauto | split; [ lia | assumption ] ].
Qed.

(** X1: the Delete button of a displayed row, whatever the sentiment filter,
    removes from the collection the event shown in that row and nothing
    else: the other events keep their order, the collection is one shorter
    and the stored age is untouched. *)
Theorem delete_displayed_row
    (filter_sentiment : string) (s : session_state) (i : nat) (e : event) :
  In (i, e) (displayed_rows filter_sentiment s) ->
  nth_error (life_events s) i = Some e
  /\ life_events (state (delete_event (Z.of_nat i) s))
     = (firstn i (life_events s) ++ skipn (S i) (life_events s))%list
  /\ S (length (life_events (state (delete_event (Z.of_nat i) s))))
     = length (life_events s)
  /\ current_age (state (delete_event (Z.of_nat i) s)) = current_age s.
Proof.
  unfold displayed_rows. rewrite filter_In, in_enumerate.
  intros [Hnth _].
  assert (Hi : (i < length (life_events s))%nat)
    by (apply nth_error_Some; congruence).
  assert (Hdel : life_events (state (delete_event (Z.of_nat i) s))
                 = (firstn i (life_events s)
                    ++ skipn (S i) (life_events s))%list).
  { unfold delete_event, Py.enumerate. cbn [state life_events].
    apply (filter_label_in_range (life_events s) 0 i Hi). }
  repeat split; try assumption.
  rewrite Hdel, length_app, length_firstn, length_skipn. lia.
Qed.

(** The "Negative" filter on the three sample records shows the third one,
    under its label 2. *)
Lemma delete_displayed_row_witness :
  nth_error sample_import 2
  = Some (sample_event 40 7 "💼 Career & Work" "Negative" "Health").
Proof.
  refine (proj1 (delete_displayed_row "Negative"
                   {| life_events := sample_import; current_age := 25 |}
                   2 (sample_event 40 7 "💼 Career & Work" "Negative" "Health")
                   _)).
  left. reflexivity.
Defined.

(** X2: adding an event and then deleting the row it was given restores the
    collection exactly, but not the stored age, which stays the age of the
    deleted event. *)
Theorem add_then_delete_restores_collection
    (show_advanced : bool) (now : string) (f : form_values)
    (s : session_state) :
  Py.truthy (event_title f) = true ->
  Py.truthy (event_description f) = true ->
  state (delete_event (Pd.len (life_events s))
                      (state (add_event show_advanced true now f s)))
  = {| life_events := life_events s; current_age := event_age f |}.
Proof.
  intros Ht Hd. rewrite (add_event_accepted _ _ _ _ Ht Hd).
  cbn [state]. unfold delete_event, Py.enumerate, Pd.len.
  cbn [state life_events current_age]. f_equal.
  rewrite (filter_label_in_range _ 0 (length (life_events s)))
    by (rewrite length_app; cbn [length]; lia).
  rewrite firstn_app, Nat.sub_diag, firstn_all, firstn_O, app_nil_r.
  rewrite skipn_all2 by (rewrite length_app; cbn [length]; lia).
  apply app_nil_r.
Qed.

Lemma add_then_delete_restores_collection_witness :
  state (delete_event 0
           (state (add_event false true "t0" (sample_form 42 "Moved" 5)
                             initial_session)))
  = {| life_events := []; current_age := 42 |}.
Proof.
  exact (add_then_delete_restores_collection false "t0"
           (sample_form 42 "Moved" 5) initial_session eq_refl eq_refl).
Defined.

(** ** Sessions that only go through the pages *)

(** An age of 0..100 always has a bucket. *)
Lemma age_range_known (a : Z) : 0 <= a <= 100 -> age_range a <> "Unknown".
Proof.
  intros H.
  assert (Hcases : a <= 5 \/ 6 <= a <= 12 \/ 13 <= a <= 17 \/ 18 <= a <= 22
                   \/ 23 <= a <= 29 \/ 30 <= a <= 39 \/ 40 <= a <= 49
                   \/ 50 <= a <= 59 \/ 60 <= a) by lia.
  repeat (destruct Hcases as [Hc | Hcases]);
    match goal with
    | |- ?x <> _ => assert (Hr : exists label, x = label /\ label <> "Unknown")
    end;
    try (destruct Hr as [label [-> Hl]]; exact Hl);
    eexists; (split; [ bucket_of_age | discriminate ]).
Qed.

(** The events left by a deletion were in the collection. *)
Lemma delete_event_incl (idx : Z) (s : session_state) (e : event) :
  In e (life_events (state (delete_event idx s))) -> In e (life_events s).
Proof.
  unfold delete_event. cbn [state life_events].
  rewrite in_map_iff. intros [[i x] [Hx Hin]]. cbn [snd] in Hx. subst x.
  apply filter_In in Hin. destruct Hin as [Hin _].
  apply in_enumerate in Hin. exact (nth_error_In _ _ Hin).
Qed.

Lemma step_keeps_page_invariant (s : session_state) (a : user_action) :
  through_the_pages a -> page_invariant s -> page_invariant (step s a).
Proof.
  intros Ha [Hage Hall]. destruct a as [adv now f | idx | | now p t | data ];
    cbn [through_the_pages] in Ha; cbn [step].
  - unfold add_event.
    destruct (true && Py.truthy (event_title f)
              && Py.truthy (event_description f));
      [ | split; assumption ].
    destruct Ha as [Ha [Hi [_ [Hs Hl]]]].
    cbn [state life_events current_age]. split; [ exact Ha | ].
    apply Forall_app. split; [ exact Hall | ].
    constructor; [ | constructor ].
    unfold entered_through_the_pages, new_event; cbn.
    repeat split; try tauto; try lia.
    apply age_range_known. exact Ha.
  - split; [ exact Hage | ].
    rewrite Forall_forall in *. intros e He.
    apply Hall. exact (delete_event_incl idx s e He).
  - split; [ exact Hage | constructor ].
  - unfold save_reflection.
    destruct (true && Py.truthy t); [ | split; assumption ].
    cbn [state life_events current_age]. split; [ exact Hage | ].
    apply Forall_app. split; [ exact Hall | ].
    constructor; [ | constructor ].
    unfold entered_through_the_pages, reflection_event; cbn.
    repeat split; try tauto; try lia.
    apply age_range_known. exact Hage.
  - contradiction.
Qed.

(** X3: in a session that starts fresh and goes only through the pages
    (submitting the form with values its widgets can hold, deleting rows,
    clearing, saving reflections; no import), the stored age stays within
    0..100, so the age input can always show it as its default, and every
    event of the collection has an age of 0..100, an impact of 1..10, a
    sentiment and a life area of the select boxes, and its own age's bucket
    as range, never ["Unknown"]. *)
Theorem pages_keep_events_within_bounds (actions : list user_action) :
  Forall through_the_pages actions ->
  0 <= default_event_age (run actions initial_session) <= 100
  /\ Forall entered_through_the_pages
            (life_events (run actions initial_session)).
Proof.
  intros Hacts.
  assert (Hinv : page_invariant initial_session)
    by (split; [ cbn; lia | constructor ]).
  unfold run. revert Hinv. generalize initial_session as s.
  induction Hacts as [ | a actions Ha _ IH ]; intros s Hinv.
  - exact Hinv.
  - cbn [fold_left]. apply IH.
    apply step_keeps_page_invariant; assumption.
Qed.

(** An event of age 70 is added, a reflection is saved and the first row is
    deleted: the reflection is left, under the age 70. *)
Lemma pages_keep_events_within_bounds_witness :
  Forall entered_through_the_pages
         (life_events
            (run [ submit_form false "t0" (sample_form 70 "Retired" 8);
                   press_save_reflection "t1" "Prompt" "Thoughts";
                   press_delete 0 ]
                 initial_session)).
Proof.
  refine (proj2 (pages_keep_events_within_bounds _ _)).
  repeat constructor; cbn; try lia; tauto.
Defined.

(** * Further properties of the recommendations *)

(** Only the second rule emits the goal-setting recommendation. *)
Lemma goal_only_from_rule_impact (df : Pd.DataFrame) :
  In goal_recommendation (recommendations df) <->
  rule_impact df = [goal_recommendation].
Proof.
  unfold recommendations. rewrite !in_app_iff. split.
  - intros [H | [H | [H | H]]].
    + unfold rule_sentiment in H.
      destruct (Pd.lt _ _); [ | contradiction ].
      destruct H as [H | []]. discriminate H.
    + unfold rule_impact in *.
      destruct (Pd.Qltb _ _); [ reflexivity | contradiction ].
    + unfold rule_life_area in H.
      destruct (Pd.iloc0 _) as [[focus n] | ]; [ | contradiction ].
      destruct (Pd.Qltb _ _); [ | contradiction ].
      destruct H as [H | []]. discriminate H.
    + unfold rule_recent in H.
      destruct (5 <=? Pd.len df); [ | contradiction ].
      destruct (3 <=? _); [ | contradiction ].
      destruct H as [H | []]. discriminate H.
  - intros ->. right. left. left. reflexivity.
Qed.

(** X4: the goal-setting recommendation is emitted exactly when the events
    of impact 8 or more are fewer than three tenths of all events, that is
    when ten times their number is less than three times the number of
    events. *)
Theorem goal_recommendation_iff_few_high_impact (df : Pd.DataFrame) :
  In goal_recommendation (recommendations df) <->
  10 * Pd.count_if (fun e => 8 <=? impact e) df < 3 * Pd.len df.
Proof.
  rewrite goal_only_from_rule_impact. unfold rule_impact.
  destruct (Pd.Qltb _ _) eqn:Hq.
  - apply Qltb_lt in Hq. unfold Qlt in Hq. cbn in Hq.
    split; [ intros _; lia | reflexivity ].
  - apply Qltb_ge in Hq. unfold Qle in Hq. cbn in Hq.
    split; [ discriminate | lia ].
Qed.

(** ** The most frequent value *)

(** Two different values cannot both fill more than half of a column. *)
Lemma occurrences_disjoint (a b : string) (l : list string) :
  a <> b -> (Pd.occurrences a l + Pd.occurrences b l <= length l)%nat.
Proof.
  intros Hne. unfold Pd.occurrences.
  induction l as [ | x l IH ]; cbn [count_occ length]; [ lia | ].
  destruct (string_dec x a) as [Ha | Ha], (string_dec x b) as [Hb | Hb];
    try lia.
  congruence.
Qed.

(** The first row of [value_counts] holds a value with its number of
    occurrences, and no value occurs more often. *)
Lemma value_counts_head (l : list string) (k : string) (n : nat) :
  Pd.iloc0 (Pd.value_counts l) = Some (k, n) ->
  n = Pd.occurrences k l
  /\ In k l
  /\ forall k', (Pd.occurrences k' l <= n)%nat.
Proof.
  unfold Pd.iloc0, Pd.value_counts.
  set (leb := fun a b : string * nat => Nat.leb (snd b) (snd a)).
  set (kc := map (fun k => (k, Pd.occurrences k l)) (Pd.unique l)).
  intros Hhd.
  assert (Hs : StronglySorted (fun a b => leb a b = true) (sort leb kc)).
  { apply sort_sorted; unfold leb.
    - intros a b. rewrite !Nat.leb_le. lia.
    - intros a b c. rewrite !Nat.leb_le. lia. }
  assert (Htot : forall a b, leb a b = true \/ leb b a = true)
    by (intros a b; unfold leb; rewrite !Nat.leb_le; lia).
  destruct (sort leb kc) as [ | [k0 n0] rest ] eqn:Hsort; [ discriminate | ].
  cbn [hd_error] in Hhd. injection Hhd as -> ->.
  assert (Hin : In (k, n) kc)
    by (apply (sort_in leb); rewrite Hsort; left; reflexivity).
  unfold kc in Hin. apply in_map_iff in Hin.
  destruct Hin as [k1 [Heq Hk1]]. injection Heq as -> <-.
  apply (proj1 (unique_in _ _)) in Hk1.
  repeat split; [ exact Hk1 | ].
  intros k'.
  destruct (in_dec string_dec k' l) as [Hin' | Hout].
  - assert (H : leb (k, Pd.occurrences k l) (k', Pd.occurrences k' l) = true).
    { apply (sorted_head_least leb Htot _ rest Hs).
      rewrite <- Hsort. apply sort_in. unfold kc. apply in_map_iff.
      exists k'. split; [ reflexivity | apply unique_in, Hin' ]. }
    unfold leb in H. cbn [snd] in H. apply Nat.leb_le in H. exact H.
  - unfold Pd.occurrences at 1.
    rewrite (proj1 (count_occ_not_In string_dec l k') Hout). lia.
Qed.

Lemma value_counts_nonempty (l : list string) :
  l <> [] -> exists k n, Pd.iloc0 (Pd.value_counts l) = Some (k, n).
Proof.
  intros Hne. unfold Pd.iloc0, Pd.value_counts.
  set (leb := fun a b : string * nat => Nat.leb (snd b) (snd a)).
  destruct (sort leb _) as [ | [k n] rest ] eqn:Hsort.
  - exfalso.
    assert (Hlen : length (Pd.unique l) = 0%nat).
    { rewrite <- (length_map (fun k => (k, Pd.occurrences k l))).
      rewrite <- (sort_length leb). rewrite Hsort. reflexivity. }
    destruct l as [ | x l ]; [ congruence | ]. discriminate Hlen.
  - exists k, n. reflexivity.
Qed.

(** The third rule, by the value that fills more than half of the life
    areas, if there is one. *)
Lemma rule_life_area_majority (df : Pd.DataFrame) :
  (exists a,
     Pd.len df < 2 * Z.of_nat (Pd.occurrences a (map life_area df))
     /\ rule_life_area df = [balance_recommendation a])
  \/ ((forall a,
         2 * Z.of_nat (Pd.occurrences a (map life_area df)) <= Pd.len df)
      /\ rule_life_area df = []).
Proof.
  unfold rule_life_area.
  destruct df as [ | e df ].
  - right. split; [ intros a; cbn; lia | reflexivity ].
  - destruct (value_counts_nonempty (map life_area (e :: df)))
      as [k [n Hhd]]; [ discriminate | ].
    rewrite Hhd.
    destruct (value_counts_head _ _ _ Hhd) as [-> [_ Hmax]].
    remember (Pd.len (e :: df)) as n eqn:Hn.
    remember (Z.of_nat (Pd.occurrences k (map life_area (e :: df)))) as m
      eqn:Hm.
    destruct (Pd.Qltb _ _) eqn:Hq.
    + left. exists k. split; [ | reflexivity ].
      apply Qltb_lt in Hq. unfold Qlt in Hq. cbn in Hq. lia.
    + right. split; [ | reflexivity ].
      intros a. apply Qltb_ge in Hq. unfold Qle in Hq. cbn in Hq.
      specialize (Hmax a). lia.
Qed.

(** ** Texts built from a name *)

Lemma string_length_append (a b : string) :
  String.length (a ++ b) = (String.length a + String.length b)%nat.
Proof.
  induction a as [ | c a IH ]; cbn [String.append String.length].
  - reflexivity.
  - rewrite IH. reflexivity.
Qed.

Lemma string_append_inj_r (s a b : string) : (a ++ s = b ++ s)%string -> a = b.
Proof.
  revert b. induction a as [ | c a IH ]; intros [ | d b ] H;
    cbn [String.append] in H.
  - reflexivity.
  - exfalso. apply (f_equal String.length) in H.
    cbn [String.length] in H. rewrite string_length_append in H. lia.
  - exfalso. apply (f_equal String.length) in H.
    cbn [String.length] in H. rewrite string_length_append in H. lia.
  - injection H as -> H. f_equal. exact (IH b H).
Qed.

(** The balance recommendation tells the areas apart. *)
Lemma balance_recommendation_inj (a b : string) :
  balance_recommendation a = balance_recommendation b -> a = b.
Proof.
  unfold balance_recommendation. intros H.
  injection H as H. cbn [String.append] in H.
  repeat match type of H with
         | String _ _ = String _ _ => injection H as H
         end.
  exact (string_append_inj_r _ a b H).
Qed.

(** Only the third rule emits a balance recommendation. *)
Lemma balance_only_from_rule_life_area (df : Pd.DataFrame) (a : string) :
  In (balance_recommendation a) (recommendations df) <->
  In (balance_recommendation a) (rule_life_area df).
Proof.
  unfold recommendations. rewrite !in_app_iff. split; [ | tauto ].
  intros [H | [H | [H | H]]]; [ | | exact H | ].
  - unfold rule_sentiment in H.
    destruct (Pd.lt _ _); [ | contradiction ].
    destruct H as [H | []]. discriminate H.
  - unfold rule_impact in H.
    destruct (Pd.Qltb _ _); [ | contradiction ].
    destruct H as [H | []]. discriminate H.
  - unfold rule_recent in H.
    destruct (5 <=? Pd.len df); [ | contradiction ].
    destruct (3 <=? _); [ | contradiction ].
    destruct H as [H | []]. discriminate H.
Qed.

(** Counting a value of a column is counting the rows that hold it. *)
Lemma occurrences_count_if (f : event -> string) (a : string)
    (df : Pd.DataFrame) :
  Z.of_nat (Pd.occurrences a (map f df))
  = Pd.count_if (fun e => String.eqb (f e) a) df.
Proof.
  unfold Pd.occurrences, Pd.count_if, Pd.len. f_equal.
  induction df as [ | e df IH ]; cbn [map count_occ filter]; [ reflexivity | ].
  destruct (string_dec (f e) a) as [Heq | Hne].
  - rewrite (proj2 (String.eqb_eq _ _) Heq). cbn [length]. rewrite IH.
    reflexivity.
  - rewrite (proj2 (String.eqb_neq _ _) Hne). exact IH.
Qed.

(** A value that fills more than half of a column is its first mode. *)
Lemma majority_is_first_mode (a : string) (l : list string) :
  (length l < 2 * Pd.occurrences a l)%nat ->
  Pd.iloc0 (Pd.mode l) = Some a.
Proof.
  intros Hmaj.
  assert (Hne : l <> []) by (intros ->; cbn in Hmaj; lia).
  destruct (first_mode_least l Hne) as [m [Hm [_ [Hmax _]]]].
  rewrite Hm. f_equal.
  destruct (string_dec m a) as [Heq | Hneq]; [ exact Heq | exfalso ].
  pose proof (occurrences_disjoint m a l Hneq) as Hd.
  pose proof (max_occurrences_ge a l) as Hge.
  lia.
Qed.

(** X5: the life-balance recommendation naming an area is emitted exactly
    when that area accounts for more than half of the events; the area is
    then the primary focus area shown among the detected patterns. *)
Theorem balance_recommendation_names_majority_area
    (df : Pd.DataFrame) (a : string) :
  (In (balance_recommendation a) (recommendations df) <->
   Pd.len df < 2 * area_count df a)
  /\ (Pd.len df < 2 * area_count df a -> top_area df = Some a).
Proof.
  unfold area_count. rewrite <- (occurrences_count_if life_area a df).
  split.
  - rewrite balance_only_from_rule_life_area.
    destruct (rule_life_area_majority df) as [[k [Hk ->]] | [Hall ->]].
    + split.
      * intros [H | []]. apply balance_recommendation_inj in H.
        subst k. exact Hk.
      * intros Ha. left. f_equal.
        destruct (string_dec k a) as [Heq | Hneq]; [ exact Heq | exfalso ].
        pose proof (occurrences_disjoint k a (map life_area df) Hneq) as Hd.
        rewrite length_map in Hd. unfold Pd.len in *. lia.
    + split; [ contradiction | ].
      intros Ha. specialize (Hall a). lia.
  - intros Ha. unfold top_area. apply majority_is_first_mode.
    rewrite length_map. unfold Pd.len in Ha. lia.
Qed.

(** ** The rule on recent events *)

Lemma stress_only_from_rule_recent (df : Pd.DataFrame) :
  In stress_recommendation (recommendations df) <->
  rule_recent df = [stress_recommendation].
Proof.
  unfold recommendations. rewrite !in_app_iff. split.
  - intros [H | [H | [H | H]]].
    + unfold rule_sentiment in H.
      destruct (Pd.lt _ _); [ | contradiction ].
      destruct H as [H | []]. discriminate H.
    + unfold rule_impact in H.
      destruct (Pd.Qltb _ _); [ | contradiction ].
      destruct H as [H | []]. discriminate H.
    + unfold rule_life_area in H.
      destruct (Pd.iloc0 _) as [[focus n] | ]; [ | contradiction ].
      destruct (Pd.Qltb _ _); [ | contradiction ].
      destruct H as [H | []]. discriminate H.
    + unfold rule_recent in *.
      destruct (5 <=? Pd.len df); [ | contradiction ].
      destruct (3 <=? _); [ reflexivity | contradiction ].
  - intros ->. right. right. right. left. reflexivity.
Qed.

Lemma count_if_firstn {A : Type} (p : A -> bool) (n : nat) (l : list A) :
  Pd.count_if p (firstn n l) <= Pd.count_if p l.
Proof.
  unfold Pd.count_if, Pd.len. apply inj_le.
  revert n. induction l as [ | x l IH ]; intros [ | n ];
    cbn [firstn filter length]; try lia.
  specialize (IH n). destruct (p x); cbn [length]; lia.
Qed.

(** X6: the stress-management recommendation is emitted exactly when there
    are at least 5 events and at least 3 of the 5 events selected by largest
    age are Negative; those 5 are events of largest age, and the
    recommendation is never emitted with fewer than 3 Negative events in
    the whole collection. *)
Theorem stress_recommendation_iff_recent_negative (df : Pd.DataFrame) :
  (In stress_recommendation (recommendations df) <->
   5 <= Pd.len df /\ 3 <= Pd.count_if is_negative (Pd.nlargest 5 df))
  /\ (5 <= Pd.len df -> largest_by_age 5 (Pd.nlargest 5 df) df)
  /\ (In stress_recommendation (recommendations df) ->
      3 <= Pd.count_if is_negative df).
Proof.
  assert (Hiff : In stress_recommendation (recommendations df) <->
                 5 <= Pd.len df
                 /\ 3 <= Pd.count_if is_negative (Pd.nlargest 5 df)).
  { rewrite stress_only_from_rule_recent. unfold rule_recent.
    destruct (Z.leb_spec 5 (Pd.len df)) as [H5 | H5].
    - destruct (Z.leb_spec 3 (Pd.count_if is_negative (Pd.nlargest 5 df)))
        as [H3 | H3].
      + split; [ intros _; split; assumption | reflexivity ].
      + split; [ discriminate | lia ].
    - split; [ discriminate | lia ]. }
  split; [ exact Hiff | split ].
  - intros H5. apply nlargest_largest. unfold Pd.len in H5. lia.
  - intros H. apply Hiff in H. destruct H as [_ H3].
    unfold Pd.nlargest in H3.
    pose proof (count_if_firstn is_negative 5
                  (sort (fun a b => age b <=? age a) df)) as Hle.
    rewrite <- (count_if_perm is_negative df _ (sort_perm _ df)) in Hle.
    lia.
Qed.

(** ** Ties in age and the order of the rows *)

Section SortDistinct.

Context {A : Type} (leb : A -> A -> bool).

Hypothesis leb_total : forall a b, leb a b = true \/ leb b a = true.
Hypothesis leb_trans :
  forall a b c, leb a b = true -> leb b c = true -> leb a c = true.

(** A sorted list is determined by its elements as soon as the order tells
    these elements apart. *)
Lemma sorted_perm_eq_on (l l' : list A) :
  (forall a b, In a l -> In b l ->
               leb a b = true -> leb b a = true -> a = b) ->
  StronglySorted (fun a b => leb a b = true) l ->
  StronglySorted (fun a b => leb a b = true) l' ->
  Permutation l l' -> l = l'.
Proof.
  revert l'.
  induction l as [ | x l IH ]; intros l' Hanti Hl Hl' Hp.
  - apply Permutation_nil in Hp. congruence.
  - destruct l' as [ | y l' ].
    + apply Permutation_sym, Permutation_nil in Hp. discriminate.
    + assert (Hy : In y (x :: l))
        by (apply (Permutation_in _ (Permutation_sym Hp)); left; reflexivity).
      assert (x = y) as <-.
      { apply Hanti; [ left; reflexivity | exact Hy | | ].
        - exact (sorted_head_least leb leb_total x l Hl y Hy).
        - apply (sorted_head_least leb leb_total y l' Hl').
          apply (Permutation_in _ Hp). left. reflexivity. }
      f_equal. apply IH.
      * intros a b Ha Hb. apply Hanti; right; assumption.
      * apply StronglySorted_inv in Hl. tauto.
      * apply StronglySorted_inv in Hl'. tauto.
      * exact (Permutation_cons_inv Hp).
Qed.

Lemma sort_perm_eq_on (l l' : list A) :
  (forall a b, In a l -> In b l ->
               leb a b = true -> leb b a = true -> a = b) ->
  Permutation l l' -> sort leb l = sort leb l'.
Proof.
  intros Hanti Hp.
  apply sorted_perm_eq_on; try (apply sort_sorted; assumption).
  - intros a b Ha Hb. apply Hanti; apply (sort_in leb); assumption.
  - apply perm_trans with l; [ apply Permutation_sym, sort_perm | ].
    apply perm_trans with l'; [ exact Hp | apply sort_perm ].
Qed.

End SortDistinct.

Lemma NoDup_map_inj {A B : Type} (f : A -> B) (l : list A) (a b : A) :
  NoDup (map f l) -> In a l -> In b l -> f a = f b -> a = b.
Proof.
  induction l as [ | x l IH ]; intros Hnd Ha Hb Hf; [ contradiction | ].
  cbn [map] in Hnd. inversion Hnd as [ | ? ? Hx Hnd' ]; subst.
  destruct Ha as [-> | Ha], Hb as [-> | Hb].
  - reflexivity.
  - exfalso. apply Hx. rewrite Hf. apply in_map, Hb.
  - exfalso. apply Hx. rewrite <- Hf. apply in_map, Ha.
  - exact (IH Hnd' Ha Hb Hf).
Qed.

Lemma nlargest_perm (n : nat) (df df' : Pd.DataFrame) :
  NoDup (map age df) -> Permutation df df' ->
  Pd.nlargest n df = Pd.nlargest n df'.
Proof.
  intros Hnd Hp. unfold Pd.nlargest. f_equal.
  apply sort_perm_eq_on; try assumption.
  - intros a b. rewrite !Z.leb_le. lia.
  - intros a b c. rewrite !Z.leb_le. lia.
  - intros a b Ha Hb H1 H2. apply Z.leb_le in H1, H2.
    apply (NoDup_map_inj age df a b Hnd Ha Hb). lia.
Qed.

Lemma nsmallest_perm (n : nat) (df df' : Pd.DataFrame) :
  NoDup (map age df) -> Permutation df df' ->
  Pd.nsmallest n df = Pd.nsmallest n df'.
Proof.
  intros Hnd Hp. unfold Pd.nsmallest. f_equal.
  apply sort_perm_eq_on; try assumption.
  - intros a b. rewrite !Z.leb_le. lia.
  - intros a b c. rewrite !Z.leb_le. lia.
  - intros a b Ha Hb H1 H2. apply Z.leb_le in H1, H2.
    apply (NoDup_map_inj age df a b Hnd Ha Hb). lia.
Qed.

Lemma fraction_perm {A : Type} (p : A -> bool) (l l' : list A) :
  Permutation l l' -> Pd.fraction p l = Pd.fraction p l'.
Proof.
  intros Hp.
  pose proof (count_if_perm p l l' Hp) as Hc.
  pose proof (Permutation_length Hp) as Hl.
  destruct l as [ | x l ], l' as [ | y l' ]; try discriminate Hl.
  - reflexivity.
  - unfold Pd.fraction. rewrite Hc, Hl. reflexivity.
Qed.

Lemma rule_life_area_perm (df df' : Pd.DataFrame) :
  Permutation df df' -> rule_life_area df = rule_life_area df'.
Proof.
  intros Hp.
  assert (Hocc : forall a, Pd.occurrences a (map life_area df)
                           = Pd.occurrences a (map life_area df'))
    by (intros a; apply occurrences_perm, Permutation_map, Hp).
  assert (Hlen : Pd.len df = Pd.len df')
    by (unfold Pd.len; rewrite (Permutation_length Hp); reflexivity).
  destruct (rule_life_area_majority df) as [[k [Hk ->]] | [Hall ->]];
    destruct (rule_life_area_majority df') as [[k' [Hk' ->]] | [Hall' ->]].
  - destruct (string_dec k k') as [-> | Hne]; [ reflexivity | exfalso ].
    pose proof (occurrences_disjoint k k' (map life_area df) Hne) as Hd.
    rewrite length_map in Hd. rewrite <- Hocc in Hk'.
    unfold Pd.len in *. lia.
  - exfalso. specialize (Hall' k). rewrite <- Hocc in Hall'. lia.
  - exfalso. specialize (Hall k'). rewrite Hocc in Hall. lia.
  - reflexivity.
Qed.

(** X7: when the ages of the events are pairwise distinct, the growth
    trajectory and the list of recommendations do not depend on the order
    of the collection; with events of equal age they can: [nlargest] keeps
    the first of the tied rows, and six events of one age with the three
    Negative ones first get the stress-management recommendation, which
    the same events in reverse order do not get. *)
Theorem distinct_ages_make_coaching_order_independent :
  (forall df df' : Pd.DataFrame,
     Permutation df df' -> NoDup (map age df) ->
     growth_trajectory df = growth_trajectory df'
     /\ recommendations df = recommendations df')
  /\ (exists df df' : Pd.DataFrame,
        Permutation df df'
        /\ In stress_recommendation (recommendations df)
        /\ ~ In stress_recommendation (recommendations df')).
Proof.
  split.
  - intros df df' Hp Hnd.
    assert (Hlen : Pd.len df = Pd.len df')
      by (unfold Pd.len; rewrite (Permutation_length Hp); reflexivity).
    split.
    + unfold growth_trajectory, recent_avg, early_avg.
      rewrite (nlargest_perm 3 df df' Hnd Hp),
        (nsmallest_perm 3 df df' Hnd Hp), Hlen.
      reflexivity.
    + unfold recommendations, rule_sentiment, positive_ratio, rule_impact,
        rule_recent.
      rewrite (fraction_perm is_positive df df' Hp).
      rewrite (count_if_perm (fun e => 8 <=? impact e) df df' Hp).
      rewrite (rule_life_area_perm df df' Hp).
      rewrite (nlargest_perm 5 df df' Hnd Hp), Hlen.
      reflexivity.
  - exists sample_same_age, (rev sample_same_age).
    split; [ apply Permutation_rev | split ].
    + apply stress_only_from_rule_recent. reflexivity.
    + rewrite stress_only_from_rule_recent. discriminate.
Qed.



(** The three sample events of distinct ages, and the same in reverse. *)
Lemma distinct_ages_make_coaching_order_independent_witness :
  growth_trajectory sample_pairs = growth_trajectory (rev sample_pairs)
  /\ recommendations sample_pairs = recommendations (rev sample_pairs).
Proof.
  refine (proj1 distinct_ages_make_coaching_order_independent
            sample_pairs (rev sample_pairs)
            (Permutation_rev sample_pairs) _).
  repeat constructor; cbn; intuition discriminate.
Defined.

(** * Further properties of the analytics *)


(** ** The age span *)

Lemma wrap_int64_small (z : Z) :
  - 2 ^ 63 <= z < 2 ^ 63 -> wrap_int64 z = z.
Proof.
  intros H. unfold wrap_int64.
  rewrite Z.mod_small by lia. lia.
Qed.

(** X10: on a non-empty collection whose ages lie between two bounds less
    than 2^63 apart (0 and 100 for the ages the form can hold), the age span
    is defined, lies between 0 and the distance of the bounds, and is 0
    exactly when all events have the same age; the correlation of age and
    impact is then undefined, and the analytics page, which draws the
    correlation box only with the advanced options on, then reports a weak
    correlation. *)
Theorem age_span_zero_means_no_correlation
    (lo hi : Z) (df : Pd.DataFrame) :
  df <> [] ->
  Forall (fun e => lo <= age e <= hi) df ->
  hi - lo < 2 ^ 63 ->
  exists d,
    age_span df = Some d
    /\ 0 <= d <= hi - lo
    /\ (d = 0 <-> constant (map age df))
    /\ (d = 0 ->
        correlation df = None
        /\ correlation_box true df
           = Some (st_info "Weak correlation: No clear age-impact pattern")
        /\ correlation_box false df = None).
Proof.
  intros Hne Hall Hwide. destruct df as [ | e df ]; [ congruence | ].
  assert (Hb : forall x, In x (map age (e :: df)) -> lo <= x <= hi).
  { intros x Hx. apply in_map_iff in Hx. destruct Hx as [e' [<- He']].
    rewrite Forall_forall in Hall. exact (Hall e' He'). }
  unfold age_span, Pd.max, Pd.min. cbn [map] in *.
  destruct (fold_max_spec (age e) (map age df)) as [Hmax_in Hmax].
  destruct (fold_min_spec (age e) (map age df)) as [Hmin_in Hmin].
  set (mx := fold_right Z.max (age e) (map age df)) in *.
  set (mn := fold_right Z.min (age e) (map age df)) in *.
  pose proof (Hb mx Hmax_in) as Hbmx. pose proof (Hb mn Hmin_in) as Hbmn.
  pose proof (Hmin mx Hmax_in) as Hle.
  rewrite wrap_int64_small by lia.
  exists (mx - mn).
  assert (Hconst : mx - mn = 0 <-> constant (age e :: map age df)).
  { split.
    - intros H x y Hx Hy.
      pose proof (Hmax x Hx). pose proof (Hmin x Hx).
      pose proof (Hmax y Hy). pose proof (Hmin y Hy). lia.
    - intros Hc. rewrite (Hc mx mn Hmax_in Hmin_in). lia. }
  split; [ reflexivity | split; [ lia | split; [ exact Hconst | ] ] ].
  intros Hd. apply Hconst in Hd.
  assert (Hnone : correlation (e :: df) = None).
  { apply correlation_undefined.
    destruct (Nat.ltb_spec (length (e :: df)) 2) as [Hlt | Hge];
      [ left; exact Hlt | right ].
    assert (Hstd : Pd.std (map age (e :: df)) = 0%R).
    { apply std_zero; [ rewrite length_map; exact Hge | exact Hd ]. }
    rewrite Hstd. apply Rmult_0_l. }
  split; [ exact Hnone | split; [ | reflexivity ] ].
  unfold correlation_box. rewrite Hnone. reflexivity.
Qed.

(** One event alone, of age 30, within the bounds 0 and 100 of the form. *)
Lemma age_span_zero_means_no_correlation_witness :
  exists d,
    age_span [sample_event 30 5 "💼 Career & Work" "Positive" "Career"]
      = Some d
    /\ 0 <= d <= 100 - 0
    /\ (d = 0 <->
        constant (map age [sample_event 30 5 "💼 Career & Work"
                                        "Positive" "Career"]))
    /\ (d = 0 ->
        correlation [sample_event 30 5 "💼 Career & Work" "Positive" "Career"]
          = None
        /\ correlation_box true [sample_event 30 5 "💼 Career & Work"
                                              "Positive" "Career"]
           = Some (st_info "Weak correlation: No clear age-impact pattern")
        /\ correlation_box false [sample_event 30 5 "💼 Career & Work"
                                               "Positive" "Career"]
           = None).
Proof.
  apply age_span_zero_means_no_correlation.
  - discriminate.
  - repeat constructor; cbn; lia.
  - reflexivity.
Defined.

(** ** The mean impact *)

Lemma sum_bounds (lo hi : Z) (xs : list Z) :
  Forall (fun x => lo <= x <= hi) xs ->
  Z.of_nat (length xs) * lo <= Pd.sum xs <= Z.of_nat (length xs) * hi.
Proof.
  unfold Pd.sum.
  induction 1 as [ | x xs Hx _ IH ]; cbn [fold_right length]; lia.
Qed.



(** * Further properties of the progress page *)

Lemma reflection_events_app (l l' : list event) :
  reflection_events (l ++ l') = reflection_events l + reflection_events l'.
Proof.
  unfold reflection_events, Pd.len.
  rewrite filter_app, length_app. lia.
Qed.

Lemma reflection_events_nonneg (l : list event) : 0 <= reflection_events l.
Proof.
  unfold reflection_events, Pd.len. lia.
Qed.

(** X12: saving a reflection adds one event, which the progress page counts
    as a reflection: the count of reflections grows by exactly one, and
    once the collection has three events the milestone "Added personal
    reflections" is listed. *)
Theorem saved_reflection_is_counted
    (now selected_prompt reflection_text : string) (s : session_state) :
  Py.truthy reflection_text = true ->
  let s' := state (save_reflection true now selected_prompt
                                   reflection_text s) in
  Pd.len (life_events s') = Pd.len (life_events s) + 1
  /\ reflection_events (life_events s')
     = reflection_events (life_events s) + 1
  /\ (3 <= Pd.len (life_events s') ->
      exists ms, milestones (life_events s') = Some ms
                 /\ In "✅ Added personal reflections" ms).
Proof.
  intros Ht. unfold save_reflection. rewrite Ht.
  cbn [andb state life_events].
  set (r := reflection_event now selected_prompt reflection_text s).
  assert (Hcount : reflection_events (life_events s ++ [r])
                   = reflection_events (life_events s) + 1).
  { rewrite reflection_events_app. f_equal. }
  split; [ | split; [ exact Hcount | ] ].
  - unfold Pd.len. rewrite length_app. cbn [length]. lia.
  - intros H3. unfold milestones.
    replace (3 <=? Pd.len (life_events s ++ [r])) with true
      by (symmetry; apply Z.leb_le; exact H3).
    eexists. split; [ reflexivity | ].
    rewrite Hcount.
    replace (1 <=? reflection_events (life_events s) + 1) with true.
    + rewrite !in_app_iff. right. right. left. left. reflexivity.
    + symmetry. apply Z.leb_le.
      pose proof (reflection_events_nonneg (life_events s)). lia.
Qed.

Lemma saved_reflection_is_counted_witness :
  reflection_events
    (life_events (state (save_reflection true "t0" "Prompt" "Thoughts"
                                         initial_session)))
  = reflection_events (life_events initial_session) + 1.
Proof.
  exact (proj1 (proj2 (saved_reflection_is_counted "t0" "Prompt" "Thoughts"
                         initial_session eq_refl))).
Defined.

(** X13: with at least three events the milestone on life areas and the
    balance insight agree (both need five distinct life areas); with
    exactly five distinct areas the milestone "Explored 5+ life areas" is
    listed while the goal to explore more diverse life areas is still
    suggested; below three events no milestone is listed at all. *)
Theorem life_area_milestone_and_goal (df : Pd.DataFrame) :
  (Pd.len df < 3 <-> milestones df = None)
  /\ (3 <= Pd.len df ->
      exists ms,
        milestones df = Some ms
        /\ (In "✅ Explored 5+ life areas" ms <->
            balance_line df = "• **Balance:** Well-rounded life experiences")
        /\ (Pd.nunique (map life_area df) = 5 ->
            In "✅ Explored 5+ life areas" ms
            /\ In "Explore more diverse life areas" (goals df))).
Proof.
  unfold milestones, balance_line, goals. split.
  - destruct (Z.leb_spec 3 (Pd.len df)) as [H | H].
    + split; [ lia | discriminate ].
    + split; [ reflexivity | intros _; exact H ].
  - intros H3.
    replace (3 <=? Pd.len df) with true by (symmetry; apply Z.leb_le; exact H3).
    eexists. split; [ reflexivity | ].
    rewrite !in_app_iff. split.
    + destruct (5 <=? Pd.len df), (10 <=? Pd.len df),
        (1 <=? reflection_events df),
        (5 <=? Pd.nunique (map life_area df));
        cbn [In]; split; intros H;
        repeat match goal with
               | H : _ \/ _ |- _ => destruct H as [H | H]
               | H : False |- _ => contradiction
               end;
        try discriminate; try reflexivity; tauto.
    + intros H5. rewrite H5. cbn [Z.leb Z.ltb Z.compare Pos.compare
                                   Pos.compare_cont In].
      split; [ tauto | ].
      cbn [In]. tauto.
Qed.

(** * Further properties of the form: tags *)

Lemma split_nonempty (sep : ascii) (s : string) : Py.split sep s <> [].
Proof.
  destruct s as [ | c s ]; cbn [Py.split]; [ discriminate | ].
  destruct (Ascii.eqb c sep); [ discriminate | ].
  destruct (Py.split sep s); discriminate.
Qed.

Lemma join_cons_char (sep : string) (c : ascii) (w : string)
    (ws : list string) :
  PyText.join sep (String c w :: ws) = String c (PyText.join sep (w :: ws)).
Proof.
  destruct ws; reflexivity.
Qed.

(** Joining the pieces of a split gives the text back. *)
Lemma join_split (s : string) : PyText.join "," (Py.split "," s) = s.
Proof.
  induction s as [ | c s IH ]; [ reflexivity | ].
  cbn [Py.split].
  destruct (Ascii.eqb_spec c ",") as [-> | Hne].
  - destruct (Py.split "," s) as [ | w ws ] eqn:Hs.
    + exfalso. exact (split_nonempty _ _ Hs).
    + change (PyText.join "," ("" :: w :: ws))
        with (String "," (PyText.join "," (w :: ws))).
      rewrite IH. reflexivity.
  - destruct (Py.split "," s) as [ | w ws ] eqn:Hs.
    + exfalso. exact (split_nonempty _ _ Hs).
    + rewrite join_cons_char, IH. reflexivity.
Qed.

(** No piece of a split holds the separator. *)
Lemma split_pieces_have_no_comma (s : string) :
  Forall (fun t => PyText.contains "," t = false) (Py.split "," s).
Proof.
  induction s as [ | c s IH ]; cbn [Py.split].
  - constructor; [ reflexivity | constructor ].
  - destruct (Ascii.eqb_spec c ",") as [-> | Hne].
    + constructor; [ reflexivity | exact IH ].
    + destruct (Py.split "," s) as [ | w ws ].
      * constructor; [ | constructor ].
        cbn [PyText.contains String.prefix].
        destruct (Ascii.ascii_dec "," c) as [Heq | _];
          [ congruence | reflexivity ].
      * inversion IH as [ | ? ? Hw Hws ]; subst.
        constructor; [ | exact Hws ].
        cbn [PyText.contains String.prefix].
        destruct (Ascii.ascii_dec "," c) as [Heq | _]; [ congruence | ].
        exact Hw.
Qed.

(** X14: with the advanced options on, the tags stored with a new event are
    the pieces of the text entered between its commas: joined by commas
    they give the text back, no tag holds a comma, and the list is empty
    exactly when no text was entered (one empty tag is never stored). *)
Theorem new_event_tags_round_trip (now : string) (f : form_values) :
  exists d,
    advanced (new_event true now f) = Some d
    /\ PyText.join "," (tags d) = form_tags f
    /\ Forall (fun t => PyText.contains "," t = false) (tags d)
    /\ (tags d = [] <-> form_tags f = "").
Proof.
  unfold new_event. cbn [advanced].
  eexists. split; [ reflexivity | ]. cbn [tags].
  destruct (form_tags f) as [ | c s ] eqn:Hf; cbn [Py.truthy].
  - repeat split; constructor.
  - split; [ apply join_split | split ].
    + apply split_pieces_have_no_comma.
    + split; [ | discriminate ].
      intros H. exfalso. exact (split_nonempty _ _ H).
Qed.

(** * Further properties of the counts by value *)

Lemma list_sum_perm (l l' : list nat) :
  Permutation l l' -> list_sum l = list_sum l'.
Proof.
  unfold list_sum.
  induction 1 as [ | x l l' _ IH | x y l | l l' l'' _ IH1 _ IH2 ];
    cbn [fold_right]; lia.
Qed.

(** Setting one key aside in a sum over distinct keys. *)
Lemma list_sum_set_aside (g : string -> nat) (x : string) (u : list string) :
  NoDup u ->
  (list_sum (map g u)
   = (if in_dec string_dec x u then g x else 0)
     + list_sum (map g (filter (fun y => negb (String.eqb y x)) u)))%nat.
Proof.
  unfold list_sum.
  induction 1 as [ | k u Hk Hnd IH ]; cbn [map filter fold_right].
  - destruct (in_dec string_dec x []); [ contradiction | reflexivity ].
  - rewrite IH.
    destruct (String.eqb_spec k x) as [-> | Hne]; cbn [negb].
    + destruct (in_dec string_dec x (x :: u)) as [_ | Hout];
        [ | exfalso; apply Hout; left; reflexivity ].
      destruct (in_dec string_dec x u) as [Hin | _]; [ contradiction | ].
      lia.
    + cbn [map fold_right].
      destruct (in_dec string_dec x (k :: u)) as [Hin | Hout];
        destruct (in_dec string_dec x u) as [Hin' | Hout']; try lia.
      * destruct Hin as [Heq | Hin]; [ congruence | contradiction ].
      * exfalso. apply Hout. right. exact Hin'.
Qed.

(** The occurrences of the distinct values add up to the length. *)
Lemma sum_occurrences_unique (l : list string) :
  list_sum (map (fun k => Pd.occurrences k l) (Pd.unique l)) = length l.
Proof.
  induction l as [ | x l IH ]; [ reflexivity | ].
  cbn [Pd.unique map length].
  change (list_sum (?a :: ?m)) with (a + list_sum m)%nat.
  rewrite (map_ext_in _ (fun k => Pd.occurrences k l)).
  - pose proof (list_sum_set_aside (fun k => Pd.occurrences k l) x
                  (Pd.unique l) (unique_nodup l)) as Hs.
    rewrite IH in Hs.
    unfold Pd.occurrences at 1. cbn [count_occ].
    destruct (string_dec x x) as [_ | Hne]; [ | congruence ].
    destruct (in_dec string_dec x (Pd.unique l)) as [Hin | Hout].
    + unfold Pd.occurrences in *. lia.
    + assert (H0 : count_occ string_dec l x = 0%nat).
      { apply count_occ_not_In. intros H. apply Hout, unique_in, H. }
      unfold Pd.occurrences in *. lia.
  - intros k Hk. apply filter_In in Hk. destruct Hk as [_ Hk].
    apply negb_true_iff, String.eqb_neq in Hk.
    unfold Pd.occurrences. cbn [count_occ].
    destruct (string_dec x k) as [Heq | _]; [ congruence | reflexivity ].
Qed.

Lemma sorted_counts_descend (counts : list (string * nat)) :
  StronglySorted (fun a b => Nat.leb (snd b) (snd a) = true) counts ->
  StronglySorted (fun a b => (snd b <= snd a)%nat) counts.
Proof.
  induction 1 as [ | a rest _ IH Ha ]; constructor; [ exact IH | ].
  eapply Forall_impl; [ | exact Ha ].
  intros b Hb. apply Nat.leb_le in Hb. exact Hb.
Qed.

(** X15: the counts by category list every category of the collection
    exactly once, each with the number of its events (at least one), most
    frequent first, and the counts add up to the number of events. *)
Theorem category_counts_partition (df : Pd.DataFrame) :
  NoDup (map fst (category_counts df))
  /\ (forall k n, In (k, n) (category_counts df) <->
                  In k (map category df)
                  /\ n = Pd.occurrences k (map category df))
  /\ Forall (fun kn => (1 <= snd kn)%nat) (category_counts df)
  /\ StronglySorted (fun a b => (snd b <= snd a)%nat) (category_counts df)
  /\ list_sum (map snd (category_counts df)) = length df.
Proof.
  unfold category_counts, Pd.value_counts.
  set (l := map category df).
  set (leb := fun a b : string * nat => Nat.leb (snd b) (snd a)).
  set (kc := map (fun k => (k, Pd.occurrences k l)) (Pd.unique l)).
  assert (Hkeys : map fst kc = Pd.unique l).
  { unfold kc. rewrite map_map. cbn [fst]. apply map_id. }
  assert (Hin : forall k n, In (k, n) (sort leb kc) <->
                            In k l /\ n = Pd.occurrences k l).
  { intros k n. rewrite sort_in. unfold kc. rewrite in_map_iff. split.
    - intros [k' [Heq Hk']]. injection Heq as -> <-.
      split; [ apply unique_in, Hk' | reflexivity ].
    - intros [Hk ->]. exists k. split; [ reflexivity | apply unique_in, Hk ]. }
  repeat match goal with |- _ /\ _ => split end.
  - apply (Permutation_NoDup (l := map fst kc)).
    + apply Permutation_map, sort_perm.
    + rewrite Hkeys. apply unique_nodup.
  - exact Hin.
  - apply Forall_forall. intros [k n] Hkn. apply Hin in Hkn.
    destruct Hkn as [Hk ->]. cbn [snd].
    apply (count_occ_In string_dec) in Hk. unfold Pd.occurrences. lia.
  - assert (Hs : StronglySorted (fun a b => leb a b = true) (sort leb kc)).
    { apply sort_sorted; unfold leb.
      - intros a b. rewrite !Nat.leb_le. lia.
      - intros a b c. rewrite !Nat.leb_le. lia. }
    exact (sorted_counts_descend _ Hs).
  - rewrite <- (list_sum_perm _ _ (Permutation_map snd (sort_perm leb kc))).
    unfold kc. rewrite map_map. cbn [snd].
    rewrite sum_occurrences_unique. unfold l. apply length_map.
Qed.
